(** * userentity/websocket.go: the websocket session of a simulated user

    A shallow embedding of [loadtest/user/userentity/websocket.go]:
    the reconnect back-off ([getWaitTime]), the event handlers that keep the
    user store in sync ([handleReactionEvent], [handlePostEvent],
    [wsEventHandler]), the reconnecting [listen] loop and [SendTypingEvent].

    Conventions.
    - Go's [int], [int64] and [time.Duration] are [Z] with the two's
      complement wrap-around written out ([Int64.wrap]).
    - [map[string]interface{}] is a [gmap string any].
    - A Go [error] value is an [option error]; [None] is [nil].
    - A pointer that may be [nil] is an [option]; reading a field through a
      [nil] pointer ends the run in [Panicked].
    - Everything the code does to the outside (store calls, channel sends,
      transport calls, timers) is recorded, in order, in a trace of
      [effect]s. *)

From Stdlib Require Import ZArith Lia List.
From stdpp Require Import base strings gmap.
Import ListNotations.

Local Open Scope Z_scope.

(** ** 64-bit signed arithmetic *)

Module Int64.

Definition min_int : Z := - 2 ^ 63.
Definition max_int : Z := 2 ^ 63 - 1.

Definition in_range (z : Z) : Prop := min_int <= z <= max_int.

(** The value a 64-bit signed register holds after an operation whose
    mathematical result is [z]. *)
Definition wrap (z : Z) : Z := (z + 2 ^ 63) mod 2 ^ 64 - 2 ^ 63.

Definition add (a b : Z) : Z := wrap (a + b).
Definition mul (a b : Z) : Z := wrap (a * b).

End Int64.

(** ** package time *)

Module time.
(** A [Duration] counts nanoseconds in an [int64]. *)
Definition Duration : Type := Z.
Definition Nanosecond : Duration := 1.
Definition Second : Duration := 1000000000.
Definition Minute : Duration := 60 * Second.
End time.

(** ** Constants of websocket.go *)

Definition minWebsocketReconnectDuration : time.Duration := 3 * time.Second.
Definition maxWebsocketReconnectDuration : time.Duration := 5 * time.Minute.
Definition maxWebsocketFails : Z := 7.

(** ** getWaitTime *)

(** [waitTime *= time.Duration(failCount) * time.Duration(failCount)] is two
    int64 multiplications; each one wraps. *)
Definition getWaitTime (failCount : Z) : time.Duration :=
  let waitTime := minWebsocketReconnectDuration in
  if failCount >? maxWebsocketFails then
    let waitTime := Int64.mul waitTime (Int64.mul failCount failCount) in
    if waitTime >? maxWebsocketReconnectDuration
    then maxWebsocketReconnectDuration
    else waitTime
  else waitTime.

(** What the back-off is meant to compute: the quadratic growth over the
    integers, clamped to the maximum. *)
Definition clampedQuadratic (failCount : Z) : Z :=
  Z.min (minWebsocketReconnectDuration * (failCount * failCount))
        maxWebsocketReconnectDuration.

(** The largest fail count whose square times three seconds still fits in an
    int64. *)
Definition lastExactFailCount : Z := 55447.

(** ** Errors *)

(** The error values the file can see. [errSeqMismatch] is the package's own
    sentinel; the two [memstore_] constructors are the sentinels of package
    memstore; [errors_New] and the two [fmt_Errorf] forms are built in place;
    [foreign_error] stands for an error made by another package (the json
    decoder, the store, the transport). *)
Inductive error : Type :=
| errSeqMismatch
| memstore_ErrChannelNotFound
| memstore_ErrPostNotFound
| errors_New (text : string)
| fmt_Errorf (text : string)
| fmt_Errorf_w (text : string) (wrapped : error)
| foreign_error (text : string).

#[global] Instance error_eq_dec : EqDecision error.
Proof. solve_decision. Defined.

(** [errors.Is]: walks the chain of wrapped errors, comparing with [==]. *)
Fixpoint errors_Is_chain (err target : error) : bool :=
  bool_decide (err = target)
  || match err with
     | fmt_Errorf_w _ wrapped => errors_Is_chain wrapped target
     | _ => false
     end.

Definition errors_Is (err : option error) (target : error) : bool :=
  match err with
  | None => false
  | Some e => errors_Is_chain e target
  end.

(** ** package model *)

(** A value of type [interface{}]: a string, or something whose dynamic type
    prints (with the verb %T) as [goType]. *)
Inductive any : Type :=
| any_string (s : string)
| any_other (goType : string).

(** [el.(string)] with the comma-ok form. *)
Definition as_string (el : option any) : option string :=
  match el with
  | Some (any_string s) => Some s
  | _ => None
  end.

Record WebSocketEvent : Type := {
  EventType : string;
  GetData : gmap string any;
  GetSequence : Z
}.

Definition WebsocketEventHello : string := "hello".
Definition WebsocketEventPosted : string := "posted".
Definition WebsocketEventPostEdited : string := "post_edited".
Definition WebsocketEventPostDeleted : string := "post_deleted".
Definition WebsocketEventReactionAdded : string := "reaction_added".
Definition WebsocketEventReactionRemoved : string := "reaction_removed".

(** The connection id a hello event carries, if the event is a hello and the
    field is a string. *)
Definition helloConnectionID (ev : WebSocketEvent) : option string :=
  if String.eqb (EventType ev) WebsocketEventHello
  then as_string (GetData ev !! "connection_id")
  else None.

Record Channel : Type := { Channel_Id : string }.

Record Post : Type := {
  Post_Id : string;
  Post_ChannelId : string;
  Post_Message : string
}.

Record Reaction : Type := {
  Reaction_UserId : string;
  Reaction_PostId : string;
  Reaction_EmojiName : string
}.

Record userTypingMsg : Type := {
  channelId : string;
  parentId : string
}.

(** ** The user store *)

(** The part of the store interface that websocket.go calls. A pointer result
    is an [option]; the two lookups only read. *)
Class MutableUserStore (S : Type) : Type := {
  store_CurrentChannel : S -> option Channel * option error;
  store_Post : S -> string -> option Post * option error;
  store_SetPost : S -> Post -> S * option error;
  store_DeletePost : S -> string -> S * option error;
  store_SetReaction : S -> Reaction -> S * option error;
  store_DeleteReaction : S -> Reaction -> S * (bool * option error)
}.

(** ** Effects *)

Inductive effect : Type :=
(* store calls *)
| call_CurrentChannel
| call_Post (postId : string)
| call_SetPost (post : Post)
| call_DeletePost (postId : string)
| call_SetReaction (reaction : Reaction)
| call_DeleteReaction (reaction : Reaction)
(* logging *)
| mlog_Debug (msg : string)
| mlog_Warn (msg : string) (got expected : Z)
(* transport *)
| call_NewClient4 (WsURL AuthToken ConnID : string) (ServerSequence : Z)
| call_client_Close
| call_client_UserTyping (channelId parentId : string)
(* channels and timers *)
| send_errChan (err : error)
| send_wsEventChan (ev : WebSocketEvent)
| send_wsTyping (msg : userTypingMsg)
| close_wsClosed
| time_After (d : time.Duration)
(* connection counter *)
| call_incWebSocketConnections
| call_decWebSocketConnections.

(** The store calls that write. *)
Definition is_store_mutation (e : effect) : bool :=
  match e with
  | call_SetPost _ | call_DeletePost _
  | call_SetReaction _ | call_DeleteReaction _ => true
  | _ => false
  end.

Definition is_SetPost (e : effect) : bool :=
  match e with call_SetPost _ => true | _ => false end.

Definition is_time_After (e : effect) : bool :=
  match e with time_After _ => true | _ => false end.

Definition is_send_wsEventChan (e : effect) : bool :=
  match e with send_wsEventChan _ => true | _ => false end.

Definition is_send_errChan (e : effect) : bool :=
  match e with send_errChan _ => true | _ => false end.

Definition is_transport_call (e : effect) : bool :=
  match e with
  | call_NewClient4 _ _ _ _ | call_client_Close
  | call_client_UserTyping _ _ => true
  | _ => false
  end.

(** What the event handlers do to the outside: store calls and log lines. *)
Definition is_store_or_log (e : effect) : bool :=
  match e with
  | call_CurrentChannel | call_Post _ | call_SetPost _ | call_DeletePost _
  | call_SetReaction _ | call_DeleteReaction _
  | mlog_Debug _ | mlog_Warn _ _ _ => true
  | _ => false
  end.

Definition count (p : effect -> bool) (t : list effect) : nat :=
  length (List.filter p t).

(** ** How a method call ends *)

Inductive outcome (A : Type) : Type :=
| Returned (a : A)
| Panicked (reason : string).
Arguments Returned {A} a.
Arguments Panicked {A} reason.

Definition nilDereference : string :=
  "runtime error: invalid memory address or nil pointer dereference".

(** ** package encoding/json *)

(** [json.Unmarshal([]byte(data), &p)] with [p] a nil pointer: a decoding
    error, or the pointer afterwards (still nil when the document is the
    literal null). *)
Class JSON : Type := {
  json_Unmarshal_Post : string -> error + option Post;
  json_Unmarshal_Reaction : string -> error + option Reaction
}.

(** ** The user entity and its methods *)

Section Methods.

Context {S : Type} `{MutableUserStore S} `{JSON}.

(** The fields of [UserEntity] that websocket.go reads or writes. *)
Record UserEntity : Type := {
  store : S;
  wsConnID : string;
  wsServerSeq : Z;
  connected : bool;
  config_WebSocketURL : string;
  client_AuthToken : string
}.

Definition with_store (s : S) (ue : UserEntity) : UserEntity :=
  {| store := s; wsConnID := wsConnID ue; wsServerSeq := wsServerSeq ue;
     connected := connected ue;
     config_WebSocketURL := config_WebSocketURL ue;
     client_AuthToken := client_AuthToken ue |}.

Definition with_wsConnID (c : string) (ue : UserEntity) : UserEntity :=
  {| store := store ue; wsConnID := c; wsServerSeq := wsServerSeq ue;
     connected := connected ue;
     config_WebSocketURL := config_WebSocketURL ue;
     client_AuthToken := client_AuthToken ue |}.

Definition with_wsServerSeq (n : Z) (ue : UserEntity) : UserEntity :=
  {| store := store ue; wsConnID := wsConnID ue; wsServerSeq := n;
     connected := connected ue;
     config_WebSocketURL := config_WebSocketURL ue;
     client_AuthToken := client_AuthToken ue |}.

(** A method body: from the receiver's state to the trace of what it did
    and either its result with the new state, or a panic. *)
Definition M (A : Type) : Type :=
  UserEntity -> list effect * outcome (A * UserEntity).

Definition ret {A} (a : A) : M A :=
  fun ue => ([], Returned (a, ue)).

Definition bind {A B} (m : M A) (k : A -> M B) : M B :=
  fun ue =>
    match m ue with
    | (t, Returned (a, ue')) =>
        let '(t', r) := k a ue' in (t ++ t', r)
    | (t, Panicked reason) => (t, Panicked reason)
    end.

Definition emit (e : effect) : M unit :=
  fun ue => ([e], Returned (tt, ue)).

Definition panic {A} (reason : string) : M A :=
  fun _ => ([], Panicked reason).

Definition get : M UserEntity :=
  fun ue => ([], Returned (ue, ue)).

Definition modify (f : UserEntity -> UserEntity) : M unit :=
  fun ue => ([], Returned (tt, f ue)).

(** Reading a field through a pointer. *)
Definition deref {A} (p : option A) : M A :=
  match p with
  | Some a => ret a
  | None => panic nilDereference
  end.

Notation "x <- m ;; k" := (bind m (fun x => k))
  (at level 20, m at level 99, k at level 200, only parsing).
Notation "' pat <- m ;; k" :=
  (bind m (fun x => match x with pat => k end))
  (at level 20, pat pattern, m at level 99, k at level 200, only parsing).
Notation "m ;; k" := (bind m (fun _ => k))
  (at level 100, k at level 200, right associativity, only parsing).

Definition notNil {A} (p : option A) : bool :=
  match p with Some _ => true | None => false end.

(** [fmt.Errorf(text + "%w", err)]. *)
Definition Errorf_w (text : string) (err : option error) : error :=
  match err with
  | Some e => fmt_Errorf_w text e
  | None => fmt_Errorf (text +:+ "%!w(<nil>)")
  end.

(** *** Store calls *)

Definition CurrentChannel : M (option Channel * option error) :=
  emit call_CurrentChannel ;;
  ue <- get ;;
  ret (store_CurrentChannel (store ue)).

Definition Post_ (postId : string) : M (option Post * option error) :=
  emit (call_Post postId) ;;
  ue <- get ;;
  ret (store_Post (store ue) postId).

Definition SetPost (post : Post) : M (option error) :=
  emit (call_SetPost post) ;;
  ue <- get ;;
  let '(s, err) := store_SetPost (store ue) post in
  modify (with_store s) ;;
  ret err.

Definition DeletePost (postId : string) : M (option error) :=
  emit (call_DeletePost postId) ;;
  ue <- get ;;
  let '(s, err) := store_DeletePost (store ue) postId in
  modify (with_store s) ;;
  ret err.

Definition SetReaction (reaction : Reaction) : M (option error) :=
  emit (call_SetReaction reaction) ;;
  ue <- get ;;
  let '(s, err) := store_SetReaction (store ue) reaction in
  modify (with_store s) ;;
  ret err.

Definition DeleteReaction (reaction : Reaction) : M (bool * option error) :=
  emit (call_DeleteReaction reaction) ;;
  ue <- get ;;
  let '(s, r) := store_DeleteReaction (store ue) reaction in
  modify (with_store s) ;;
  ret r.

(** *** handleReactionEvent *)

Definition handleReactionEvent (ev : WebSocketEvent) : M (option error) :=
  match GetData ev !! "reaction" with
  | None => ret (Some (errors_New "reaction data is missing"))
  | Some (any_other T) =>
      ret (Some (fmt_Errorf
        ("type of the reaction data should be a string, but it is " +:+ T)))
  | Some (any_string data) =>
      match json_Unmarshal_Reaction data with
      | inl err => ret (Some err)
      | inr reaction =>
          '(currentChannel, err) <- CurrentChannel ;;
          if notNil err && negb (errors_Is err memstore_ErrChannelNotFound)
          then ret (Some (Errorf_w
                 "failed to get current channel from store: " err))
          else if negb (notNil currentChannel) then ret None
          else
            r <- deref reaction ;;
            '(post, err) <- Post_ (Reaction_PostId r) ;;
            (* errors.Is(..) || post.ChannelId != currentChannel.Id:
               the right operand is read only when the left is false *)
            if errors_Is err memstore_ErrPostNotFound then ret None
            else
              p <- deref post ;;
              c <- deref currentChannel ;;
              if negb (String.eqb (Post_ChannelId p) (Channel_Id c))
              then ret None
              else if notNil err
              then ret (Some (Errorf_w
                     "failed to get post from store: " err))
              else if String.eqb (EventType ev) WebsocketEventReactionAdded
              then SetReaction r
              else if String.eqb (EventType ev) WebsocketEventReactionRemoved
              then
                '(ok, err) <- DeleteReaction r ;;
                if notNil err then ret err
                else if negb ok
                then ret (Some (errors_New
                       "could not find reaction in the store"))
                else ret None
              else ret None
      end
  end.

(** *** handlePostEvent *)

Definition handlePostEvent (ev : WebSocketEvent) : M (option error) :=
  match GetData ev !! "post" with
  | None => ret (Some (errors_New "post data is missing"))
  | Some (any_other T) =>
      ret (Some (fmt_Errorf
        ("type of the post data should be a string, but it is " +:+ T)))
  | Some (any_string data) =>
      match json_Unmarshal_Post data with
      | inl err => ret (Some err)
      | inr post =>
          if String.eqb (EventType ev) WebsocketEventPosted
             || String.eqb (EventType ev) WebsocketEventPostEdited
          then
            '(currentChannel, err) <- CurrentChannel ;;
            if negb (notNil err) then
              c <- deref currentChannel ;;
              p <- deref post ;;
              if String.eqb (Channel_Id c) (Post_ChannelId p)
              then SetPost p
              else ret None
            else if negb (errors_Is err memstore_ErrChannelNotFound)
            then ret (Some (Errorf_w
                   "failed to get current channel from store: " err))
            else ret None
          else if String.eqb (EventType ev) WebsocketEventPostDeleted
          then
            p <- deref post ;;
            DeletePost (Post_Id p)
          else ret None
      end
  end.

(** *** wsEventHandler *)

(** The first block of [wsEventHandler]: the hello event records the
    connection id, and resets the sequence number when the server sent a
    different one. *)
Definition wsEventHandler_hello (ev : WebSocketEvent) : M unit :=
  if String.eqb (EventType ev) WebsocketEventHello then
    match as_string (GetData ev !! "connection_id") with
    | Some connID =>
        ue <- get ;;
        (if negb (String.eqb (wsConnID ue) "")
            && negb (String.eqb (wsConnID ue) connID)
         then
           emit (mlog_Debug
             "Long timeout, or server restart, or sequence number not found") ;;
           modify (with_wsServerSeq 0)
         else ret tt) ;;
        modify (with_wsConnID connID)
    | None => ret tt
    end
  else ret tt.

(** The last block: the store update by event type. *)
Definition wsEventHandler_dispatch (ev : WebSocketEvent) : M (option error) :=
  if String.eqb (EventType ev) WebsocketEventReactionAdded
     || String.eqb (EventType ev) WebsocketEventReactionRemoved
  then handleReactionEvent ev
  else if String.eqb (EventType ev) WebsocketEventPosted
          || String.eqb (EventType ev) WebsocketEventPostEdited
          || String.eqb (EventType ev) WebsocketEventPostDeleted
  then handlePostEvent ev
  else ret None.

Definition wsEventHandler (ev : WebSocketEvent) : M (option error) :=
  wsEventHandler_hello ev ;;
  ue <- get ;;
  if negb (GetSequence ev =? wsServerSeq ue) then
    emit (mlog_Warn "Missed websocket event"
            (GetSequence ev) (wsServerSeq ue)) ;;
    ret (Some errSeqMismatch)
  else
    modify (with_wsServerSeq (Int64.add (GetSequence ev) 1)) ;;
    wsEventHandler_dispatch ev.

(** *** SendTypingEvent *)

Definition SendTypingEvent (channelId parentId : string) : M (option error) :=
  ue <- get ;;
  if negb (connected ue) then
    ret (Some (errors_New "user is not connected"))
  else
    emit (send_wsTyping {| channelId := channelId; parentId := parentId |}) ;;
    ret None.

End Methods.

(** ** listen *)

(** [listen] blocks in four places: the call of [NewClient4] at the top of the
    outer loop, the [select] after a failed connect, the [select] of the
    inner loop, and the [select] after the inner loop. The loop is a machine
    over these places; what the environment does at each of them (the result
    of the connect, the [select] case that fires) is the machine's input. *)
Inductive place : Type :=
| AtStart            (* label start: about to call NewClient4 *)
| ConnectFailedWait  (* select after the connect error *)
| Active             (* select of the inner loop *)
| DisconnectedWait   (* select after the inner loop *)
| Exited             (* returned *)
| Crashed.           (* wsEventHandler panicked *)

Inductive input : Type :=
| NewClient4_ok
| NewClient4_err (err : error)
| recv_EventChannel (ev : WebSocketEvent)
| closed_EventChannel
| recv_wsClosing
| recv_wsTyping (msg : userTypingMsg) (UserTyping_result : option error)
| closed_wsTyping
| timer_fired.

Section Listen.

Context {S : Type} `{MutableUserStore S} `{JSON}.

Record listenState : Type := {
  ue : @UserEntity S;
  connectionFailCount : Z;
  at_ : place
}.

Definition goto (p : place) (st : listenState) : listenState :=
  {| ue := ue st; connectionFailCount := connectionFailCount st; at_ := p |}.

Definition with_ue (u : UserEntity) (st : listenState) : listenState :=
  {| ue := u; connectionFailCount := connectionFailCount st; at_ := at_ st |}.

(** [connectionFailCount++] followed by the entry of the waiting [select],
    which evaluates [time.After(getWaitTime(connectionFailCount))]. The
    counter is an [int], taken to be 64 bits wide. *)
Definition failAndWait (p : place) (st : listenState)
  : list effect * listenState :=
  let n := Int64.add (connectionFailCount st) 1 in
  ([time_After (getWaitTime n)],
   {| ue := ue st; connectionFailCount := n; at_ := p |}).

(** The two waiting selects have the same three cases. *)
Definition waitStep (st : listenState) (i : input)
  : option (list effect * listenState) :=
  match i with
  | recv_wsTyping _ _ | closed_wsTyping | timer_fired =>
      Some ([], goto AtStart st)
  | recv_wsClosing => Some ([close_wsClosed], goto Exited st)
  | _ => None
  end.

(** [chanClosed = true; break], then [client.Close(); break], then the code
    after the inner loop. *)
Definition channelClosed (st : listenState) : list effect * listenState :=
  let '(t, st') := failAndWait DisconnectedWait st in
  ([call_client_Close; call_decWebSocketConnections] ++ t, st').

Definition listen_step (st : listenState) (i : input)
  : option (list effect * listenState) :=
  match at_ st with
  | AtStart =>
      let params :=
        call_NewClient4 (config_WebSocketURL (ue st))
          (client_AuthToken (ue st)) (wsConnID (ue st))
          (wsServerSeq (ue st)) in
      match i with
      | NewClient4_err err =>
          let '(t, st') := failAndWait ConnectFailedWait st in
          Some ([params;
                 send_errChan (fmt_Errorf_w
                   "userentity: websocketClient creation error: " err)]
                ++ t, st')
      | NewClient4_ok =>
          Some ([params; call_incWebSocketConnections], goto Active st)
      | _ => None
      end
  | ConnectFailedWait => waitStep st i
  | Active =>
      match i with
      | recv_EventChannel ev =>
          match wsEventHandler ev (ue st) with
          | (t, Panicked _) => Some (t, goto Crashed st)
          | (t, Returned (None, u)) =>
              Some (t ++ [send_wsEventChan ev], with_ue u st)
          | (t, Returned (Some err, u)) =>
              if bool_decide (err = errSeqMismatch) then
                Some (t ++ [call_client_Close; call_decWebSocketConnections],
                      goto AtStart (with_ue u st))
              else
                Some (t ++ [send_errChan (fmt_Errorf_w
                              "userentity: error in wsEventHandler: " err);
                            send_wsEventChan ev],
                      with_ue u st)
          end
      | closed_EventChannel | closed_wsTyping => Some (channelClosed st)
      | recv_wsClosing =>
          Some ([call_client_Close; call_decWebSocketConnections;
                 close_wsClosed], goto Exited st)
      | recv_wsTyping msg result =>
          Some (call_client_UserTyping (channelId msg) (parentId msg)
                :: match result with
                   | Some err =>
                       [send_errChan (fmt_Errorf_w
                          "userentity: error in client.UserTyping: " err)]
                   | None => []
                   end,
                st)
      | _ => None
      end
  | DisconnectedWait => waitStep st i
  | Exited | Crashed => None
  end.

(** [listen] starts with [connectionFailCount := 0] at the label. *)
Definition listen_init (u : UserEntity) : listenState :=
  {| ue := u; connectionFailCount := 0; at_ := AtStart |}.

Fixpoint listen_run (st : listenState) (inputs : list input)
  : option (list effect * listenState) :=
  match inputs with
  | [] => Some ([], st)
  | i :: inputs' =>
      match listen_step st i with
      | None => None
      | Some (t, st') =>
          match listen_run st' inputs' with
          | None => None
          | Some (t', st'') => Some (t ++ t', st'')
          end
      end
  end.

End Listen.

(** [n] failed connects in a row, each wait ended by its timer or by a
    typing message. *)
Fixpoint failedConnects (err : error) (wake : input) (n : nat) : list input :=
  match n with
  | O => []
  | Datatypes.S n' => NewClient4_err err :: wake :: failedConnects err wake n'
  end.

(** ** A scripted store and decoders, for running the methods *)

(** A store whose lookups give fixed answers and whose writes succeed and are
    remembered. *)
Record scriptedStore : Type := {
  answer_CurrentChannel : option Channel * option error;
  answer_Post : option Post * option error;
  answer_DeleteReaction : bool * option error;
  written : list effect
}.

Definition record_write (e : effect) (s : scriptedStore) : scriptedStore :=
  {| answer_CurrentChannel := answer_CurrentChannel s;
     answer_Post := answer_Post s;
     answer_DeleteReaction := answer_DeleteReaction s;
     written := written s ++ [e] |}.

#[global] Instance scriptedStore_store : MutableUserStore scriptedStore := {
  store_CurrentChannel s := answer_CurrentChannel s;
  store_Post s _ := answer_Post s;
  store_SetPost s p := (record_write (call_SetPost p) s, None);
  store_DeletePost s id := (record_write (call_DeletePost id) s, None);
  store_SetReaction s r := (record_write (call_SetReaction r) s, None);
  store_DeleteReaction s r :=
    (record_write (call_DeleteReaction r) s, answer_DeleteReaction s)
}.

Module Sample.

Definition townSquare : Channel := {| Channel_Id := "town-square" |}.
Definition offTopic : Channel := {| Channel_Id := "off-topic" |}.

Definition post1 : Post :=
  {| Post_Id := "p1"; Post_ChannelId := "town-square";
     Post_Message := "hello" |}.

Definition thumbsUp : Reaction :=
  {| Reaction_UserId := "u1"; Reaction_PostId := "p1";
     Reaction_EmojiName := "+1" |}.

(** Decoders that accept every document. *)
#[global] Instance decoder : JSON := {
  json_Unmarshal_Post _ := inr (Some post1);
  json_Unmarshal_Reaction _ := inr (Some thumbsUp)
}.

Definition storeWith (cur : option Channel * option error)
    (post : option Post * option error) (del : bool * option error)
  : scriptedStore :=
  {| answer_CurrentChannel := cur; answer_Post := post;
     answer_DeleteReaction := del; written := [] |}.

(** Viewing town-square, post p1 known, reaction present. *)
Definition store0 : scriptedStore :=
  storeWith (Some townSquare, None) (Some post1, None) (true, None).

Definition user (s : scriptedStore) (connID : string) (seq : Z)
    (conn : bool) : UserEntity :=
  {| store := s; wsConnID := connID; wsServerSeq := seq; connected := conn;
     config_WebSocketURL := "ws://localhost:8065";
     client_AuthToken := "token" |}.

(** The same user with other stores. *)
Definition viewingOffTopic : @UserEntity scriptedStore :=
  user (storeWith (Some offTopic, None)
          (None, Some memstore_ErrPostNotFound) (false, None)) "A" 5 true.

Definition viewingNothing : @UserEntity scriptedStore :=
  user (storeWith (None, Some memstore_ErrChannelNotFound)
          (None, Some memstore_ErrPostNotFound) (false, None)) "A" 5 true.

Definition storeClosed : error := foreign_error "store is closed".

Definition channelLookupFails : @UserEntity scriptedStore :=
  user (storeWith (None, Some storeClosed)
          (None, Some memstore_ErrPostNotFound) (false, None)) "A" 5 true.

Definition reactionGone : @UserEntity scriptedStore :=
  user (storeWith (Some townSquare, None) (Some post1, None) (false, None))
    "A" 5 true.

Definition postLookupFails : @UserEntity scriptedStore :=
  user (storeWith (Some townSquare, None) (None, Some storeClosed)
          (false, None)) "A" 5 true.

Definition postLookupFailsWithPost : @UserEntity scriptedStore :=
  user (storeWith (Some townSquare, None) (Some post1, Some storeClosed)
          (false, None)) "A" 5 true.

Definition event (kind : string) (data : gmap string any) (seq : Z)
  : WebSocketEvent :=
  {| EventType := kind; GetData := data; GetSequence := seq |}.

Definition helloFrom (connID : string) (seq : Z) : WebSocketEvent :=
  event WebsocketEventHello {[ "connection_id" := any_string connID ]} seq.

Definition postEvent (kind : string) (seq : Z) : WebSocketEvent :=
  event kind {[ "post" := any_string "{}" ]} seq.

Definition reactionEvent (kind : string) (seq : Z) : WebSocketEvent :=
  event kind {[ "reaction" := any_string "{}" ]} seq.

Definition active (u : @UserEntity scriptedStore) (n : Z) : listenState :=
  {| ue := u; connectionFailCount := n; at_ := Active |}.

End Sample.

(** A user viewing town-square, connection id "A", next sequence number 5. *)
Definition sampleUser : @UserEntity scriptedStore :=
  Sample.user Sample.store0 "A" 5 true.

(** ** Reading traces and inputs *)

Definition is_store_call (e : effect) : bool :=
  match e with
  | call_CurrentChannel | call_Post _ | call_SetPost _ | call_DeletePost _
  | call_SetReaction _ | call_DeleteReaction _ => true
  | _ => false
  end.

Definition is_close_wsClosed (e : effect) : bool :=
  match e with close_wsClosed => true | _ => false end.

Definition is_incWebSocketConnections (e : effect) : bool :=
  match e with call_incWebSocketConnections => true | _ => false end.

Definition is_decWebSocketConnections (e : effect) : bool :=
  match e with call_decWebSocketConnections => true | _ => false end.

(** The events sent on [wsEventChan], in order. *)
Definition sent_events (t : list effect) : list WebSocketEvent :=
  omap (fun e => match e with send_wsEventChan ev => Some ev | _ => None end)
       t.

(** The events received from [client.EventChannel], in order. *)
Definition received_events (inputs : list input) : list WebSocketEvent :=
  omap (fun i => match i with recv_EventChannel ev => Some ev | _ => None end)
       inputs.

(** The events carry the sequence numbers [n], [n + 1], ... *)
Fixpoint consecutiveFrom (n : Z) (evs : list WebSocketEvent) : Prop :=
  match evs with
  | [] => True
  | ev :: evs' => GetSequence ev = n /\ consecutiveFrom (n + 1) evs'
  end.

(** Whether [listen] holds a transport connection at a place: between the
    increment after a successful connect and the decrement. *)
Definition holdsConnection (p : place) : nat :=
  match p with
  | Active | Crashed => 1
  | _ => 0
  end.

(** The places where [listen] sits in a [select] that watches [wsClosing]. *)
Definition inSelect (p : place) : bool :=
  match p with
  | ConnectFailedWait | Active | DisconnectedWait => true
  | _ => false
  end.

(** ** The typing channel *)






(** A payload field the handlers cannot use: missing, no string, or a
    string the decoder refuses (with an error of its own, which cannot be the
    sentinel of this package). *)
Definition undecodable {A} (decode : string -> error + option A)
    (el : option any) : Prop :=
  match el with
  | Some (any_string data) =>
      exists err, decode data = inl err /\ err <> errSeqMismatch
  | _ => True
  end.

(** ** More sample inputs *)

(** A decoder for the document null: it gives nil pointers and no error. *)
Definition nullDecoder : JSON :=
  {| json_Unmarshal_Post := fun _ => inr None;
     json_Unmarshal_Reaction := fun _ => inr None |}.

(** A session of the sample user: a failed connect and its wait, a connect,
    two events in sequence, an event out of sequence, the reconnect, a typing
    message, the loss of the connection, and the close signal during the
    wait. *)
Definition sampleSession : list input :=
  [NewClient4_err Sample.storeClosed; timer_fired; NewClient4_ok;
   recv_EventChannel (Sample.postEvent "posted" 5);
   recv_EventChannel (Sample.event "typing" ∅ 6);
   recv_EventChannel (Sample.postEvent "posted" 9);
   NewClient4_ok;
   recv_wsTyping {| channelId := "town-square"; parentId := "" |} None;
   closed_EventChannel;
   recv_wsClosing].

(** Three events with the sequence numbers 5, 6 and 7. *)
Definition sampleEvents : list WebSocketEvent :=
  [Sample.postEvent "posted" 5; Sample.event "typing" ∅ 6;
   Sample.reactionEvent "reaction_added" 7].

(** * Properties *)

(** ** 64-bit arithmetic *)

Lemma Int64_wrap_in_range z : Int64.in_range (Int64.wrap z).
Proof.
  unfold Int64.in_range, Int64.wrap, Int64.min_int, Int64.max_int.
  pose proof (Z.mod_pos_bound (z + 2 ^ 63) (2 ^ 64) ltac:(lia)). lia.
Qed.

Lemma Int64_wrap_small z : Int64.in_range z -> Int64.wrap z = z.
Proof.
  unfold Int64.in_range, Int64.wrap, Int64.min_int, Int64.max_int.
  intros Hz. rewrite Z.mod_small by lia. lia.
Qed.

Lemma Int64_add_1_small n :
  Int64.min_int <= n < Int64.max_int -> Int64.add n 1 = n + 1.
Proof.
  intros Hn. apply Int64_wrap_small. unfold Int64.in_range. lia.
Qed.

(** ** The back-off *)

Lemma minWebsocketReconnectDuration_ns :
  minWebsocketReconnectDuration = 3000000000.
Proof. reflexivity. Qed.

Lemma maxWebsocketReconnectDuration_ns :
  maxWebsocketReconnectDuration = 300000000000.
Proof. reflexivity. Qed.

(** At or below the threshold the wait is the minimum. *)
Lemma getWaitTime_base f :
  f <= maxWebsocketFails -> getWaitTime f = minWebsocketReconnectDuration.
Proof.
  intros Hf. unfold getWaitTime.
  destruct (Z.gtb_spec f maxWebsocketFails); [lia | reflexivity].
Qed.

(** Whatever the fail count, the clamp keeps the wait at or below the
    maximum. *)
Lemma getWaitTime_le_max f : getWaitTime f <= maxWebsocketReconnectDuration.
Proof.
  unfold getWaitTime.
  destruct (f >? maxWebsocketFails); [| rewrite
    minWebsocketReconnectDuration_ns, maxWebsocketReconnectDuration_ns; lia].
  match goal with |- context [?a >? ?b] => destruct (Z.gtb_spec a b) end; lia.
Qed.

(** As long as three seconds times the square fits in an int64, the code
    computes the clamped quadratic. *)
Lemma getWaitTime_exact f :
  maxWebsocketFails < f <= lastExactFailCount ->
  getWaitTime f = clampedQuadratic f.
Proof.
  unfold maxWebsocketFails, lastExactFailCount. intros Hf.
  unfold getWaitTime, clampedQuadratic, maxWebsocketFails.
  destruct (Z.gtb_spec f 7); [| lia].
  assert (Hsq : 49 <= f * f <= 55447 * 55447) by nia.
  unfold Int64.mul.
  rewrite (Int64_wrap_small (f * f))
    by (unfold Int64.in_range, Int64.min_int, Int64.max_int; lia).
  rewrite minWebsocketReconnectDuration_ns, maxWebsocketReconnectDuration_ns.
  rewrite Int64_wrap_small
    by (unfold Int64.in_range, Int64.min_int, Int64.max_int; lia).
  match goal with |- context [?a >? ?b] => destruct (Z.gtb_spec a b) end; lia.
Qed.

(** Up to [lastExactFailCount] the wait stays between the two constants. *)
Lemma getWaitTime_bounds_exact_range f :
  f <= lastExactFailCount ->
  minWebsocketReconnectDuration <= getWaitTime f
    <= maxWebsocketReconnectDuration.
Proof.
  intros Hf. split; [| apply getWaitTime_le_max].
  destruct (Z.le_gt_cases f maxWebsocketFails) as [Hle | Hgt].
  - rewrite getWaitTime_base by exact Hle. lia.
  - rewrite getWaitTime_exact by lia.
    unfold clampedQuadratic, maxWebsocketFails in *.
    rewrite minWebsocketReconnectDuration_ns, maxWebsocketReconnectDuration_ns.
    nia.
Qed.

(** Up to [lastExactFailCount] the wait does not decrease. *)
Lemma getWaitTime_monotone_exact_range f g :
  maxWebsocketFails < f -> f <= g -> g <= lastExactFailCount ->
  getWaitTime f <= getWaitTime g.
Proof.
  intros Hf Hfg Hg.
  rewrite !getWaitTime_exact by lia.
  unfold clampedQuadratic, maxWebsocketFails in *.
  rewrite minWebsocketReconnectDuration_ns.
  apply Z.min_le_compat_r. nia.
Qed.

(** C5 (the code departs from the claim). At fail count 55448 the product
    [3s * 55448 * 55448] no longer fits in an int64: the wait wraps to a
    negative duration, below the minimum, and smaller than the wait for
    55447 although the fail count grew. *)
Theorem getWaitTime_wraps_negative :
  getWaitTime 55448 = -9223301961709551616
  /\ getWaitTime 55448 < 0
  /\ getWaitTime 55448 < minWebsocketReconnectDuration
  /\ getWaitTime 55447 = maxWebsocketReconnectDuration
  /\ getWaitTime 55448 < getWaitTime 55447.
Proof. vm_compute. repeat split; congruence. Qed.

(** C6 (the code departs from the claim). At fail count 55448 the code does
    not return [base * f^2] clamped to five minutes, which is five minutes,
    but the wrapped product; at 2^32 it returns zero. *)
Theorem getWaitTime_not_clamped_quadratic :
  clampedQuadratic 55448 = maxWebsocketReconnectDuration
  /\ getWaitTime 55448 <> clampedQuadratic 55448
  /\ getWaitTime (2 ^ 32) = 0.
Proof. vm_compute. repeat split; congruence. Qed.

(** ** The event handlers *)

Ltac break_match_hyp :=
  match goal with
  | H : context [match ?x with _ => _ end] |- _ => destruct x eqn:?
  end.

Ltac unfold_monad :=
  unfold CurrentChannel, Post_, SetPost, DeletePost, SetReaction,
    DeleteReaction, deref, bind, ret, emit, panic, get, modify in *.

Ltac invert_returns :=
  repeat match goal with
  | H : (_, _) = (_, _) |- _ => inversion H; subst; clear H
  | H : Returned _ = Returned _ |- _ => inversion H; subst; clear H
  | H : Returned _ = Panicked _ |- _ => discriminate H
  | H : Panicked _ = Returned _ |- _ => discriminate H
  end.

Section HandlerFacts.

Context {S : Type} `{MutableUserStore S} `{JSON}.

(** The handlers of the two event families touch the store only. *)
Lemma handleReactionEvent_keeps_tracker ev (u u' : @UserEntity S) t err :
  handleReactionEvent ev u = (t, Returned (err, u')) ->
  wsConnID u' = wsConnID u /\ wsServerSeq u' = wsServerSeq u.
Proof.
  unfold handleReactionEvent. unfold_monad. intros Hrun.
  repeat (break_match_hyp; simpl in *; invert_returns; auto).
Qed.

Lemma handlePostEvent_keeps_tracker ev (u u' : @UserEntity S) t err :
  handlePostEvent ev u = (t, Returned (err, u')) ->
  wsConnID u' = wsConnID u /\ wsServerSeq u' = wsServerSeq u.
Proof.
  unfold handlePostEvent. unfold_monad. intros Hrun.
  repeat (break_match_hyp; simpl in *; invert_returns; auto).
Qed.

Lemma wsEventHandler_dispatch_keeps_tracker ev (u u' : @UserEntity S) t err :
  wsEventHandler_dispatch ev u = (t, Returned (err, u')) ->
  wsConnID u' = wsConnID u /\ wsServerSeq u' = wsServerSeq u.
Proof.
  unfold wsEventHandler_dispatch. intros Hrun.
  repeat break_match_hyp;
    eauto using handleReactionEvent_keeps_tracker,
      handlePostEvent_keeps_tracker.
  unfold ret in Hrun. invert_returns. auto.
Qed.

(** *** The hello block *)

(** An event that is no hello, or carries no string connection id, leaves
    the tracker alone. *)
Lemma wsEventHandler_hello_skip ev (u : @UserEntity S) :
  helloConnectionID ev = None ->
  wsEventHandler_hello ev u = ([], Returned (tt, u)).
Proof.
  unfold helloConnectionID, wsEventHandler_hello. intros Hno.
  destruct (String.eqb (EventType ev) WebsocketEventHello); [| reflexivity].
  rewrite Hno. reflexivity.
Qed.

(** The state the hello block leaves for a hello that carries [connID]. *)
Lemma wsEventHandler_hello_run ev (u : @UserEntity S) connID :
  helloConnectionID ev = Some connID ->
  exists t,
    wsEventHandler_hello ev u =
      (t, Returned (tt, with_wsConnID connID
             (if negb (String.eqb (wsConnID u) "")
                 && negb (String.eqb (wsConnID u) connID)
              then with_wsServerSeq 0 u else u))).
Proof.
  unfold helloConnectionID, wsEventHandler_hello. intros Hid.
  destruct (String.eqb (EventType ev) WebsocketEventHello); [| discriminate].
  rewrite Hid. unfold_monad. simpl.
  destruct (negb (String.eqb (wsConnID u) "")
            && negb (String.eqb (wsConnID u) connID)); simpl; eauto.
Qed.

(** The hello block never panics. *)
Lemma wsEventHandler_hello_returns ev (u : @UserEntity S) :
  exists t u1, wsEventHandler_hello ev u = (t, Returned (tt, u1)).
Proof.
  destruct (helloConnectionID ev) as [connID |] eqn:Hid.
  - destruct (wsEventHandler_hello_run ev u connID Hid) as [t Ht]. eauto.
  - rewrite wsEventHandler_hello_skip by exact Hid. eauto.
Qed.

(** *** The sequence check *)

(** [wsEventHandler] after its hello block: the sequence number of the event
    is compared with the tracker as the hello block left it. *)
Lemma wsEventHandler_after_hello ev (u u1 : @UserEntity S) t1 :
  wsEventHandler_hello ev u = (t1, Returned (tt, u1)) ->
  (GetSequence ev = wsServerSeq u1 ->
   wsEventHandler ev u =
     (t1 ++ fst (wsEventHandler_dispatch ev
                   (with_wsServerSeq (Int64.add (GetSequence ev) 1) u1)),
      snd (wsEventHandler_dispatch ev
             (with_wsServerSeq (Int64.add (GetSequence ev) 1) u1))))
  /\ (GetSequence ev <> wsServerSeq u1 ->
      wsEventHandler ev u =
        (t1 ++ [mlog_Warn "Missed websocket event"
                  (GetSequence ev) (wsServerSeq u1)],
         Returned (Some errSeqMismatch, u1))).
Proof.
  intros Hhello.
  split; intros Hseq; unfold wsEventHandler;
    unfold bind at 1; rewrite Hhello;
    unfold bind at 1; unfold get at 1; cbv beta iota.
  - apply Z.eqb_eq in Hseq. rewrite Hseq. cbv beta iota delta [negb].
    unfold bind at 1. unfold modify at 1. cbv beta iota.
    destruct (wsEventHandler_dispatch ev _) as [t r]. reflexivity.
  - apply Z.eqb_neq in Hseq. rewrite Hseq. cbv beta iota delta [negb].
    unfold_monad. reflexivity.
Qed.

Lemma helloConnectionID_hello ev connID :
  EventType ev = WebsocketEventHello ->
  GetData ev !! "connection_id" = Some (any_string connID) ->
  helloConnectionID ev = Some connID.
Proof.
  intros Htype Hdata. unfold helloConnectionID.
  rewrite Htype, Hdata. reflexivity.
Qed.

(** C2 (amended). The hello block runs first and leaves a tracker [u1]; it is
    the tracker itself unless the event is a hello that carries a connection
    id. The event is accepted exactly when its sequence number equals the
    sequence number of [u1]: then the store update of the event runs with the
    sequence number advanced by one (as an int64), and the connection id stays
    that of [u1]. Otherwise the handler returns [errSeqMismatch] and leaves
    the tracker as [u1]. *)
Theorem wsEventHandler_sequence_check ev (u : @UserEntity S) :
  exists t1 u1,
    wsEventHandler_hello ev u = (t1, Returned (tt, u1))
    /\ (helloConnectionID ev = None -> t1 = [] /\ u1 = u)
    /\ (GetSequence ev = wsServerSeq u1 ->
        let u2 := with_wsServerSeq (Int64.add (wsServerSeq u1) 1) u1 in
        wsEventHandler ev u =
          (t1 ++ fst (wsEventHandler_dispatch ev u2),
           snd (wsEventHandler_dispatch ev u2))
        /\ forall t err u',
             wsEventHandler ev u = (t, Returned (err, u')) ->
             wsConnID u' = wsConnID u1
             /\ wsServerSeq u' = Int64.add (wsServerSeq u1) 1
             /\ (Int64.min_int <= wsServerSeq u1 < Int64.max_int ->
                 wsServerSeq u' = wsServerSeq u1 + 1))
    /\ (GetSequence ev <> wsServerSeq u1 ->
        wsEventHandler ev u =
          (t1 ++ [mlog_Warn "Missed websocket event"
                    (GetSequence ev) (wsServerSeq u1)],
           Returned (Some errSeqMismatch, u1))).
Proof.
  destruct (wsEventHandler_hello_returns ev u) as (t1 & u1 & Hhello).
  exists t1, u1. split; [exact Hhello |].
  destruct (wsEventHandler_after_hello ev u u1 t1 Hhello) as [Hacc Hrej].
  split; [| split].
  - intros Hno. rewrite wsEventHandler_hello_skip in Hhello by exact Hno.
    inversion Hhello. auto.
  - intros Hseq. cbv zeta. specialize (Hacc Hseq). rewrite Hseq in Hacc.
    split; [exact Hacc |].
    intros t err u' Hrun. rewrite Hacc in Hrun.
    destruct (wsEventHandler_dispatch ev _) as [td rd] eqn:Hd.
    simpl in Hrun. inversion Hrun; subst.
    apply wsEventHandler_dispatch_keeps_tracker in Hd.
    destruct Hd as [Hc Hs]. simpl in Hc, Hs.
    repeat split; auto.
    intros Hrange. rewrite Hs. apply Int64_add_1_small; exact Hrange.
  - exact Hrej.
Qed.

(** C3. A hello event that carries the connection id [connID]: the hello
    block resets the sequence number to 0 when the recorded id is non-empty
    and different, leaves it alone when the recorded id is the same (or
    empty), and records [connID] in every case; whenever the whole handler
    returns, the recorded id is [connID]. *)
Theorem wsEventHandler_hello_connection_id ev (u : @UserEntity S) connID :
  EventType ev = WebsocketEventHello ->
  GetData ev !! "connection_id" = Some (any_string connID) ->
  exists t u1,
    wsEventHandler_hello ev u = (t, Returned (tt, u1))
    /\ wsConnID u1 = connID
    /\ store u1 = store u
    /\ (wsConnID u <> "" -> wsConnID u <> connID -> wsServerSeq u1 = 0)
    /\ (wsConnID u = connID -> wsServerSeq u1 = wsServerSeq u)
    /\ (wsConnID u = "" -> wsServerSeq u1 = wsServerSeq u)
    /\ (forall t' err u',
          wsEventHandler ev u = (t', Returned (err, u')) ->
          wsConnID u' = connID).
Proof.
  intros Htype Hdata.
  pose proof (helloConnectionID_hello ev connID Htype Hdata) as Hid.
  destruct (wsEventHandler_hello_run ev u connID Hid) as [t Hrun].
  eexists t, _. split; [exact Hrun |].
  destruct (wsEventHandler_after_hello ev u _ t Hrun) as [Hacc Hrej].
  split; [reflexivity |].
  split; [destruct (_ && _); reflexivity |].
  split; [| split; [| split]].
  - intros Hne Hdiff.
    apply String.eqb_neq in Hne, Hdiff. rewrite Hne, Hdiff. reflexivity.
  - intros Hsame. apply String.eqb_eq in Hsame. rewrite Hsame.
    rewrite andb_false_r. reflexivity.
  - intros Hempty. apply String.eqb_eq in Hempty. rewrite Hempty.
    reflexivity.
  - intros t' err u' Hfull.
    match type of Hacc with
    | GetSequence ev = ?n -> _ => destruct (Z.eq_dec (GetSequence ev) n) as [Heq | Hneq]
    end.
    + rewrite (Hacc Heq) in Hfull.
      destruct (wsEventHandler_dispatch ev _) as [td rd] eqn:Hd.
      simpl in Hfull. inversion Hfull; subst.
      apply wsEventHandler_dispatch_keeps_tracker in Hd.
      destruct Hd as [Hc _]. rewrite Hc. reflexivity.
    + rewrite (Hrej Hneq) in Hfull. inversion Hfull; subst. reflexivity.
Qed.

(** *** Message events *)

Lemma create_or_edit_test ev :
  EventType ev = WebsocketEventPosted
  \/ EventType ev = WebsocketEventPostEdited ->
  String.eqb (EventType ev) WebsocketEventPosted
  || String.eqb (EventType ev) WebsocketEventPostEdited = true.
Proof. intros [-> | ->]; reflexivity. Qed.

(** C7. A create or edit event whose payload decodes to [post]:
    - the store has an active channel and it is the channel of [post]: the
      only store write is one [SetPost post], and its result is returned;
    - another channel is active: no store write, no error;
    - the store reports that no channel is active: no store write, no error;
    - the lookup fails otherwise: the error is returned, wrapped. *)
Theorem handlePostEvent_create_or_edit ev data post (u : @UserEntity S) :
  EventType ev = WebsocketEventPosted
  \/ EventType ev = WebsocketEventPostEdited ->
  GetData ev !! "post" = Some (any_string data) ->
  json_Unmarshal_Post data = inr (Some post) ->
  (forall c,
     store_CurrentChannel (store u) = (Some c, None) ->
     Channel_Id c = Post_ChannelId post ->
     handlePostEvent ev u =
       ([call_CurrentChannel; call_SetPost post],
        Returned (snd (store_SetPost (store u) post),
                  with_store (fst (store_SetPost (store u) post)) u))
     /\ count is_SetPost (fst (handlePostEvent ev u)) = 1%nat
     /\ count is_store_mutation (fst (handlePostEvent ev u)) = 1%nat)
  /\ (forall c,
        store_CurrentChannel (store u) = (Some c, None) ->
        Channel_Id c <> Post_ChannelId post ->
        handlePostEvent ev u = ([call_CurrentChannel], Returned (None, u))
        /\ count is_store_mutation (fst (handlePostEvent ev u)) = 0%nat)
  /\ (forall c e,
        store_CurrentChannel (store u) = (c, Some e) ->
        errors_Is (Some e) memstore_ErrChannelNotFound = true ->
        handlePostEvent ev u = ([call_CurrentChannel], Returned (None, u))
        /\ count is_store_mutation (fst (handlePostEvent ev u)) = 0%nat)
  /\ (forall c e,
        store_CurrentChannel (store u) = (c, Some e) ->
        errors_Is (Some e) memstore_ErrChannelNotFound = false ->
        handlePostEvent ev u =
          ([call_CurrentChannel],
           Returned (Some (fmt_Errorf_w
                       "failed to get current channel from store: " e), u))).
Proof.
  intros Htype Hdata Hdecode.
  assert (Hrun : handlePostEvent ev u =
    (let '(currentChannel, err) := store_CurrentChannel (store u) in
     if negb (notNil err) then
       match currentChannel with
       | Some c =>
           if String.eqb (Channel_Id c) (Post_ChannelId post) then
             ([call_CurrentChannel; call_SetPost post],
              Returned (snd (store_SetPost (store u) post),
                        with_store (fst (store_SetPost (store u) post)) u))
           else ([call_CurrentChannel], Returned (None, u))
       | None => ([call_CurrentChannel], Panicked nilDereference)
       end
     else if negb (errors_Is err memstore_ErrChannelNotFound) then
       ([call_CurrentChannel],
        Returned (Some (Errorf_w
                    "failed to get current channel from store: " err), u))
     else ([call_CurrentChannel], Returned (None, u)))).
  { unfold handlePostEvent. rewrite Hdata, Hdecode.
    rewrite (create_or_edit_test ev Htype). unfold_monad. simpl.
    destruct (store_CurrentChannel (store u)) as [[c |] [e |]]; simpl;
      try reflexivity.
    - destruct (negb (errors_Is_chain e memstore_ErrChannelNotFound));
        reflexivity.
    - destruct (String.eqb (Channel_Id c) (Post_ChannelId post));
        [| reflexivity].
      destruct (store_SetPost (store u) post); reflexivity.
    - destruct (negb (errors_Is_chain e memstore_ErrChannelNotFound));
        reflexivity. }
  rewrite Hrun. clear Hrun.
  split; [| split; [| split]].
  - intros c Hcur Hsame. rewrite Hcur. simpl.
    apply String.eqb_eq in Hsame. rewrite Hsame. auto.
  - intros c Hcur Hdiff. rewrite Hcur. simpl.
    apply String.eqb_neq in Hdiff. rewrite Hdiff. auto.
  - intros c e Hcur His. rewrite Hcur. simpl in *. rewrite His. auto.
  - intros c e Hcur His. rewrite Hcur. simpl in *. rewrite His. auto.
Qed.

(** *** Reaction events *)

(** What [handleReactionEvent] does once the payload is decoded and a channel
    is active, by the answer of the post lookup. *)
Lemma handleReactionEvent_after_lookup ev data reaction c
    (u : @UserEntity S) :
  GetData ev !! "reaction" = Some (any_string data) ->
  json_Unmarshal_Reaction data = inr (Some reaction) ->
  store_CurrentChannel (store u) = (Some c, None) ->
  handleReactionEvent ev u =
    (let pre := [call_CurrentChannel; call_Post (Reaction_PostId reaction)] in
     let '(post, err) := store_Post (store u) (Reaction_PostId reaction) in
     if errors_Is err memstore_ErrPostNotFound then (pre, Returned (None, u))
     else match post with
          | None => (pre, Panicked nilDereference)
          | Some p =>
              if negb (String.eqb (Post_ChannelId p) (Channel_Id c))
              then (pre, Returned (None, u))
              else if notNil err
              then (pre, Returned (Some (Errorf_w
                            "failed to get post from store: " err), u))
              else if String.eqb (EventType ev) WebsocketEventReactionAdded
              then (pre ++ [call_SetReaction reaction],
                    Returned (snd (store_SetReaction (store u) reaction),
                      with_store
                        (fst (store_SetReaction (store u) reaction)) u))
              else if String.eqb (EventType ev) WebsocketEventReactionRemoved
              then
                let '(s, (ok, err)) :=
                  store_DeleteReaction (store u) reaction in
                (pre ++ [call_DeleteReaction reaction],
                 Returned
                   (if notNil err then err
                    else if negb ok
                    then Some (errors_New
                           "could not find reaction in the store")
                    else None,
                    with_store s u))
              else (pre, Returned (None, u))
          end).
Proof.
  intros Hdata Hdecode Hcur.
  unfold handleReactionEvent. rewrite Hdata, Hdecode.
  unfold_monad. simpl. rewrite Hcur. simpl.
  destruct (store_Post (store u) (Reaction_PostId reaction)) as [post err].
  simpl.
  destruct (errors_Is err memstore_ErrPostNotFound); [reflexivity |].
  destruct post as [p |]; [| reflexivity]. simpl.
  destruct (negb (String.eqb (Post_ChannelId p) (Channel_Id c)));
    [reflexivity |].
  destruct (notNil err); [reflexivity |].
  destruct (String.eqb (EventType ev) WebsocketEventReactionAdded).
  { destruct (store_SetReaction (store u) reaction); reflexivity. }
  destruct (String.eqb (EventType ev) WebsocketEventReactionRemoved);
    [| reflexivity].
  destruct (store_DeleteReaction (store u) reaction) as [s [ok derr]].
  simpl. destruct (notNil derr); [reflexivity |].
  destruct (negb ok); reflexivity.
Qed.

(** C8. A reaction-remove event, with a channel active and the post of the
    reaction known and in that channel: when the store does not find the
    reaction the handler returns the error "could not find reaction in the
    store"; when the store finds and deletes it the handler returns no
    error. *)
Theorem handleReactionEvent_remove ev data reaction c p (u : @UserEntity S) :
  EventType ev = WebsocketEventReactionRemoved ->
  GetData ev !! "reaction" = Some (any_string data) ->
  json_Unmarshal_Reaction data = inr (Some reaction) ->
  store_CurrentChannel (store u) = (Some c, None) ->
  store_Post (store u) (Reaction_PostId reaction) = (Some p, None) ->
  Post_ChannelId p = Channel_Id c ->
  let trace := [call_CurrentChannel; call_Post (Reaction_PostId reaction);
                call_DeleteReaction reaction] in
  (forall s,
     store_DeleteReaction (store u) reaction = (s, (false, None)) ->
     handleReactionEvent ev u =
       (trace,
        Returned (Some (errors_New "could not find reaction in the store"),
                  with_store s u)))
  /\ (forall s,
        store_DeleteReaction (store u) reaction = (s, (true, None)) ->
        handleReactionEvent ev u = (trace, Returned (None, with_store s u))).
Proof.
  intros Htype Hdata Hdecode Hcur Hpost Hchan. cbv zeta.
  rewrite (handleReactionEvent_after_lookup ev data reaction c u
             Hdata Hdecode Hcur).
  rewrite Hpost, Htype. simpl.
  apply String.eqb_eq in Hchan. rewrite Hchan. simpl.
  split; intros s Hdel; rewrite Hdel; reflexivity.
Qed.

(** C10. In [handleReactionEvent] the test on the channel of the post comes
    before the test on the error of the lookup. When the lookup fails with an
    error that is not post-not-found:
    - without a post, the handler panics on reading the channel of the post;
    - with a post of another channel, the error is dropped;
    - only with a post of the active channel is the error returned. *)
Theorem handleReactionEvent_lookup_error ev data reaction c e
    (u : @UserEntity S) :
  GetData ev !! "reaction" = Some (any_string data) ->
  json_Unmarshal_Reaction data = inr (Some reaction) ->
  store_CurrentChannel (store u) = (Some c, None) ->
  errors_Is (Some e) memstore_ErrPostNotFound = false ->
  let trace := [call_CurrentChannel; call_Post (Reaction_PostId reaction)] in
  (store_Post (store u) (Reaction_PostId reaction) = (None, Some e) ->
   handleReactionEvent ev u = (trace, Panicked nilDereference))
  /\ (forall p,
        store_Post (store u) (Reaction_PostId reaction) = (Some p, Some e) ->
        Post_ChannelId p <> Channel_Id c ->
        handleReactionEvent ev u = (trace, Returned (None, u)))
  /\ (forall p,
        store_Post (store u) (Reaction_PostId reaction) = (Some p, Some e) ->
        Post_ChannelId p = Channel_Id c ->
        handleReactionEvent ev u =
          (trace,
           Returned (Some (fmt_Errorf_w "failed to get post from store: " e),
                     u))).
Proof.
  intros Hdata Hdecode Hcur His. cbv zeta.
  rewrite (handleReactionEvent_after_lookup ev data reaction c u
             Hdata Hdecode Hcur).
  split; [| split].
  - intros Hpost. rewrite Hpost, His. reflexivity.
  - intros p Hpost Hdiff. rewrite Hpost, His.
    apply String.eqb_neq in Hdiff. rewrite Hdiff. reflexivity.
  - intros p Hpost Hsame. rewrite Hpost, His.
    apply String.eqb_eq in Hsame. rewrite Hsame. reflexivity.
Qed.

(** *** The traces of the handlers *)

Lemma handleReactionEvent_trace ev (u : @UserEntity S) t r :
  handleReactionEvent ev u = (t, r) -> Forall (fun e => is_store_or_log e = true) t.
Proof.
  unfold handleReactionEvent. unfold_monad. intros Hrun.
  repeat (break_match_hyp; simpl in *; invert_returns);
    repeat constructor.
Qed.

Lemma handlePostEvent_trace ev (u : @UserEntity S) t r :
  handlePostEvent ev u = (t, r) -> Forall (fun e => is_store_or_log e = true) t.
Proof.
  unfold handlePostEvent. unfold_monad. intros Hrun.
  repeat (break_match_hyp; simpl in *; invert_returns);
    repeat constructor.
Qed.

Lemma wsEventHandler_dispatch_trace ev (u : @UserEntity S) t r :
  wsEventHandler_dispatch ev u = (t, r) ->
  Forall (fun e => is_store_or_log e = true) t.
Proof.
  unfold wsEventHandler_dispatch. intros Hrun.
  repeat break_match_hyp;
    eauto using handleReactionEvent_trace, handlePostEvent_trace.
  unfold ret in Hrun. invert_returns. constructor.
Qed.

Lemma wsEventHandler_hello_trace ev (u : @UserEntity S) t r :
  wsEventHandler_hello ev u = (t, r) ->
  Forall (fun e => is_store_or_log e = true) t.
Proof.
  unfold wsEventHandler_hello. unfold_monad. intros Hrun.
  repeat (break_match_hyp; simpl in *; invert_returns);
    repeat constructor.
Qed.

Lemma wsEventHandler_trace ev (u : @UserEntity S) t r :
  wsEventHandler ev u = (t, r) -> Forall (fun e => is_store_or_log e = true) t.
Proof.
  intros Hrun.
  destruct (wsEventHandler_hello_returns ev u) as (t1 & u1 & Hhello).
  pose proof (wsEventHandler_hello_trace ev u t1 _ Hhello) as Ht1.
  destruct (wsEventHandler_after_hello ev u u1 t1 Hhello) as [Hacc Hrej].
  destruct (Z.eq_dec (GetSequence ev) (wsServerSeq u1)) as [Heq | Hneq].
  - rewrite (Hacc Heq) in Hrun.
    destruct (wsEventHandler_dispatch ev _) as [td rd] eqn:Hd.
    simpl in Hrun. inversion Hrun; subst.
    apply Forall_app. split; [exact Ht1 |].
    eapply wsEventHandler_dispatch_trace; exact Hd.
  - rewrite (Hrej Hneq) in Hrun. inversion Hrun; subst.
    apply Forall_app. split; [exact Ht1 | repeat constructor].
Qed.

End HandlerFacts.

(** ** Counting effects *)

Lemma count_app p t1 t2 : count p (t1 ++ t2) = (count p t1 + count p t2)%nat.
Proof. unfold count. rewrite List.filter_app, length_app. reflexivity. Qed.

Lemma count_none p q t :
  (forall e, q e = true -> p e = false) ->
  Forall (fun e => q e = true) t -> count p t = 0%nat.
Proof.
  intros Hpq Hall. unfold count.
  induction Hall as [| e t He _ IH]; [reflexivity |].
  simpl. rewrite (Hpq e He). exact IH.
Qed.

Lemma store_or_log_not_send e :
  is_store_or_log e = true -> is_send_wsEventChan e = false.
Proof. destruct e; simpl; congruence. Qed.

Lemma store_or_log_not_errChan e :
  is_store_or_log e = true -> is_send_errChan e = false.
Proof. destruct e; simpl; congruence. Qed.

Lemma store_or_log_not_timer e :
  is_store_or_log e = true -> is_time_After e = false.
Proof. destruct e; simpl; congruence. Qed.

(** ** The listen loop *)

Section ListenFacts.

Context {S : Type} `{MutableUserStore S} `{JSON}.

(** C1 (amended). In the inner loop, an event whose sequence number differs
    from the expected one makes [listen] close the transport, decrement the
    connection count and jump to the label [start]: the fail count is left
    as it is and no timer is armed, and whatever happens next starts with the
    call of [NewClient4] with the tracker's connection id and sequence
    number. *)
Theorem listen_sequence_mismatch (st : @listenState S) ev t1 u1 :
  at_ st = Active ->
  wsEventHandler_hello ev (ue st) = (t1, Returned (tt, u1)) ->
  GetSequence ev <> wsServerSeq u1 ->
  exists t st',
    listen_step st (recv_EventChannel ev) = Some (t, st')
    /\ t = t1 ++ [mlog_Warn "Missed websocket event"
                    (GetSequence ev) (wsServerSeq u1);
                  call_client_Close; call_decWebSocketConnections]
    /\ st' = {| ue := u1; connectionFailCount := connectionFailCount st;
                at_ := AtStart |}
    /\ count is_time_After t = 0%nat
    /\ count is_send_wsEventChan t = 0%nat
    /\ (forall i t2 st2,
          listen_step st' i = Some (t2, st2) ->
          exists rest,
            t2 = call_NewClient4 (config_WebSocketURL u1)
                   (client_AuthToken u1) (wsConnID u1) (wsServerSeq u1)
                 :: rest).
Proof.
  intros Hat Hhello Hseq.
  destruct (wsEventHandler_after_hello ev (ue st) u1 t1 Hhello) as [_ Hrej].
  specialize (Hrej Hseq).
  pose proof (wsEventHandler_hello_trace ev (ue st) t1 _ Hhello) as Ht1.
  eexists _, _. split.
  { unfold listen_step. rewrite Hat, Hrej. simpl.
    rewrite <- app_assoc. reflexivity. }
  split; [reflexivity |]. split; [reflexivity |].
  split; [| split].
  - rewrite count_app.
    rewrite (count_none _ _ t1 store_or_log_not_timer Ht1). reflexivity.
  - rewrite count_app.
    rewrite (count_none _ _ t1 store_or_log_not_send Ht1). reflexivity.
  - intros i t2 st2 Hstep. unfold listen_step in Hstep. simpl in Hstep.
    destruct i; try discriminate; inversion Hstep; eauto.
Qed.

(** C4 (amended). In the inner loop, an event the handler returned from is
    sent on [wsEventChan] unless the handler returned [errSeqMismatch]:
    - no error: the event is sent, the loop stays in the inner select;
    - another error: the error is sent on the error channel and then the
      event is sent all the same, the loop stays in the inner select;
    - [errSeqMismatch]: nothing is sent.
    The handler itself sends on neither channel. *)
Theorem listen_republishes_event (st : @listenState S) ev t err u :
  at_ st = Active ->
  wsEventHandler ev (ue st) = (t, Returned (err, u)) ->
  count is_send_wsEventChan t = 0%nat
  /\ count is_send_errChan t = 0%nat
  /\ (err = None ->
      listen_step st (recv_EventChannel ev) =
        Some (t ++ [send_wsEventChan ev], with_ue u st))
  /\ (forall e, err = Some e -> e <> errSeqMismatch ->
      listen_step st (recv_EventChannel ev) =
        Some (t ++ [send_errChan (fmt_Errorf_w
                      "userentity: error in wsEventHandler: " e);
                    send_wsEventChan ev],
              with_ue u st))
  /\ (err = Some errSeqMismatch ->
      listen_step st (recv_EventChannel ev) =
        Some (t ++ [call_client_Close; call_decWebSocketConnections],
              goto AtStart (with_ue u st)))
  /\ (exists t' st',
        listen_step st (recv_EventChannel ev) = Some (t', st')
        /\ count is_send_wsEventChan t' =
             (if bool_decide (err = Some errSeqMismatch) then 0 else 1)%nat
        /\ (err <> Some errSeqMismatch -> at_ st' = Active)).
Proof.
  intros Hat Hrun.
  pose proof (wsEventHandler_trace ev (ue st) t _ Hrun) as Ht.
  pose proof (count_none _ _ t store_or_log_not_send Ht) as Hsend.
  pose proof (count_none _ _ t store_or_log_not_errChan Ht) as Herr.
  split; [exact Hsend |]. split; [exact Herr |].
  unfold listen_step. rewrite Hat, Hrun.
  split; [| split; [| split]].
  - intros ->. reflexivity.
  - intros e -> Hne. rewrite bool_decide_eq_false_2 by exact Hne.
    reflexivity.
  - intros ->. reflexivity.
  - destruct err as [e |].
    + destruct (decide (e = errSeqMismatch)) as [-> | Hne].
      * eexists _, _. split; [reflexivity |].
        rewrite count_app, Hsend. split; [reflexivity |]. congruence.
      * rewrite (bool_decide_eq_false_2 (e = errSeqMismatch)) by exact Hne.
        eexists _, _. split; [reflexivity |].
        rewrite count_app, Hsend.
        rewrite bool_decide_eq_false_2 by congruence.
        split; [reflexivity |]. intros _. exact Hat.
    + eexists _, _. split; [reflexivity |].
      rewrite count_app, Hsend. split; [reflexivity |]. intros _. exact Hat.
Qed.

(** While [listen] waits to reconnect, a typing message is taken from the
    channel and dropped: nothing is sent or called. *)
Lemma listen_drains_typing (st : @listenState S) msg result :
  at_ st = ConnectFailedWait \/ at_ st = DisconnectedWait ->
  listen_step st (recv_wsTyping msg result) = Some ([], goto AtStart st).
Proof. intros [Hat | Hat]; unfold listen_step; rewrite Hat; reflexivity. Qed.

(** The body of [SendTypingEvent], the blocking of its send left aside: it
    returns the error "user is not connected", and
    sends nothing, when the entity is not connected; otherwise it puts the
    pair on the typing channel and returns no error. It never calls the
    transport, never sends on the error channel and never changes the
    entity, whatever the pair and wherever [listen] is. While [listen] waits
    to reconnect, the message is taken from the channel and dropped. *)
Theorem SendTypingEvent_spec channelId parentId (u : @UserEntity S) :
  (connected u = false ->
   SendTypingEvent channelId parentId u =
     ([], Returned (Some (errors_New "user is not connected"), u)))
  /\ (connected u = true ->
      SendTypingEvent channelId parentId u =
        ([send_wsTyping {| channelId := channelId; parentId := parentId |}],
         Returned (None, u)))
  /\ count is_transport_call (fst (SendTypingEvent channelId parentId u))
     = 0%nat
  /\ count is_send_errChan (fst (SendTypingEvent channelId parentId u))
     = 0%nat
  /\ (forall (st : @listenState S) msg result,
        ue st = u ->
        at_ st = ConnectFailedWait \/ at_ st = DisconnectedWait ->
        listen_step st (recv_wsTyping msg result)
          = Some ([], goto AtStart st)).
Proof.
  unfold SendTypingEvent. unfold_monad. simpl.
  destruct (connected u); simpl; repeat split; intros; try congruence;
    apply listen_drains_typing; assumption.
Qed.

(** A failed connect from fail count [n] arms the timer with
    [getWaitTime (n + 1)]. *)
Lemma listen_connect_error (st : @listenState S) err :
  at_ st = AtStart ->
  Int64.min_int <= connectionFailCount st < Int64.max_int ->
  exists st',
    listen_step st (NewClient4_err err) =
      Some ([call_NewClient4 (config_WebSocketURL (ue st))
               (client_AuthToken (ue st)) (wsConnID (ue st))
               (wsServerSeq (ue st));
             send_errChan (fmt_Errorf_w
               "userentity: websocketClient creation error: " err);
             time_After (getWaitTime (connectionFailCount st + 1))], st')
    /\ connectionFailCount st' = connectionFailCount st + 1
    /\ at_ st' = ConnectFailedWait
    /\ ue st' = ue st.
Proof.
  intros Hat Hrange. unfold listen_step, failAndWait. rewrite Hat.
  rewrite Int64_add_1_small by exact Hrange.
  eexists. split; [reflexivity |]. auto.
Qed.

(** The fail count is never reset: after [n] failed connects it has grown
    by [n]. *)
Lemma listen_run_failedConnects err wake n : forall (st : @listenState S),
  wake = timer_fired \/ (exists msg r, wake = recv_wsTyping msg r) ->
  at_ st = AtStart ->
  Int64.min_int <= connectionFailCount st ->
  connectionFailCount st + Z.of_nat n <= Int64.max_int ->
  exists t,
    listen_run st (failedConnects err wake n) =
      Some (t, {| ue := ue st;
                  connectionFailCount := connectionFailCount st + Z.of_nat n;
                  at_ := AtStart |}).
Proof.
  induction n as [| n IH]; intros st Hwake Hat Hmin Hmax.
  - simpl. exists []. destruct st; simpl in *. subst.
    rewrite Z.add_0_r. reflexivity.
  - destruct (listen_connect_error st err Hat ltac:(lia))
      as (st1 & Hstep & Hcount & Hat1 & Hue).
    cbn [failedConnects listen_run]. rewrite Hstep.
    assert (Hwait : listen_step st1 wake = Some ([], goto AtStart st1)).
    { unfold listen_step. rewrite Hat1.
      destruct Hwake as [-> | (msg & r & ->)]; reflexivity. }
    rewrite Hwait.
    destruct (IH (goto AtStart st1) Hwake eq_refl) as [t Ht].
    { simpl. lia. }
    { simpl. lia. }
    rewrite Ht. simpl. rewrite Hcount, Hue.
    replace (connectionFailCount st + Z.of_nat (Datatypes.S n))
      with (connectionFailCount st + 1 + Z.of_nat n) by lia.
    eexists. reflexivity.
Qed.

(** Nothing resets the fail count, so a session whose connects keep failing
    reaches the point where the timer is armed with a negative duration. *)
Lemma listen_arms_negative_timer (u : @UserEntity S) err wake :
  wake = timer_fired \/ (exists msg r, wake = recv_wsTyping msg r) ->
  exists t st t' st',
    listen_run (listen_init u) (failedConnects err wake (Z.to_nat 55447))
      = Some (t, st)
    /\ listen_step st (NewClient4_err err) = Some (t', st')
    /\ In (time_After (-9223301961709551616)) t'.
Proof.
  intros Hwake.
  destruct (listen_run_failedConnects err wake (Z.to_nat 55447)
              (listen_init u) Hwake eq_refl) as [t Ht].
  { simpl. unfold Int64.min_int. lia. }
  { rewrite Z2Nat.id by lia. simpl. unfold Int64.max_int. lia. }
  rewrite Z2Nat.id in Ht by lia.
  unfold listen_init in Ht at 2 3. cbn [connectionFailCount ue] in Ht.
  match type of Ht with _ = Some (_, ?s) =>
    destruct (listen_connect_error s err eq_refl) as (st' & Hstep & _)
  end.
  { cbn [connectionFailCount]. unfold Int64.min_int, Int64.max_int. lia. }
  cbn [connectionFailCount ue] in Hstep.
  eexists _, _, _, _. split; [exact Ht |]. split; [exact Hstep |].
  right. right. left. reflexivity.
Qed.

End ListenFacts.

(** ** The methods on sample inputs *)

(** C1 (the claim as written fails). The loop is in its inner select with
    fail count 3; an event with sequence number 8 arrives while 5 is
    expected. The transport is closed and the count of connections
    decremented, but the fail count stays 3 and no timer is armed: the loop
    is back at the label [start]. *)
Lemma listen_sequence_mismatch_keeps_fail_count :
  GetSequence (Sample.postEvent "posted" 8) <> wsServerSeq sampleUser
  /\ exists t st',
       listen_step (Sample.active sampleUser 3)
         (recv_EventChannel (Sample.postEvent "posted" 8)) = Some (t, st')
       /\ t = [mlog_Warn "Missed websocket event" 8 5;
               call_client_Close; call_decWebSocketConnections]
       /\ connectionFailCount st' = 3
       /\ connectionFailCount st' <> 3 + 1
       /\ count is_time_After t = 0%nat
       /\ at_ st' = AtStart.
Proof.
  split; [discriminate |].
  eexists _, _. split; [vm_compute; reflexivity |].
  repeat split; discriminate.
Qed.

Lemma listen_sequence_mismatch_witness :
  at_ (Sample.active sampleUser 3) = Active
  /\ wsEventHandler_hello (Sample.postEvent "posted" 8) sampleUser
     = ([], Returned (tt, sampleUser))
  /\ GetSequence (Sample.postEvent "posted" 8) <> wsServerSeq sampleUser
  /\ exists t st',
       listen_step (Sample.active sampleUser 3)
         (recv_EventChannel (Sample.postEvent "posted" 8)) = Some (t, st')
       /\ connectionFailCount st' = 3
       /\ at_ st' = AtStart.
Proof.
  split; [reflexivity |]. split; [reflexivity |].
  split; [discriminate |].
  destruct (listen_sequence_mismatch (Sample.active sampleUser 3)
              (Sample.postEvent "posted" 8) [] sampleUser
              eq_refl eq_refl ltac:(discriminate))
    as (t & st' & Hstep & _ & Hst & _).
  exists t, st'. split; [exact Hstep |].
  rewrite Hst. split; reflexivity.
Defined.

(** C2 (the claim as written fails). The tracker is ("A", 5); a hello event
    from connection "B" arrives with sequence number 5, the expected one. The
    hello block resets the sequence number to 0 first, so the event is
    rejected with [errSeqMismatch], and the tracker is ("B", 0) afterwards,
    neither advanced to 6 nor left unchanged. *)
Lemma wsEventHandler_rejects_expected_sequence :
  GetSequence (Sample.helloFrom "B" 5) = wsServerSeq sampleUser
  /\ exists t u',
       wsEventHandler (Sample.helloFrom "B" 5) sampleUser
         = (t, Returned (Some errSeqMismatch, u'))
       /\ wsServerSeq u' = 0
       /\ wsServerSeq u' <> wsServerSeq sampleUser + 1
       /\ wsConnID u' = "B"
       /\ wsConnID u' <> wsConnID sampleUser.
Proof.
  split; [reflexivity |].
  eexists _, _. split; [vm_compute; reflexivity |].
  repeat split; discriminate.
Qed.

Lemma wsEventHandler_sequence_check_witness :
  (exists t u',
     wsEventHandler (Sample.postEvent "post_edited" 5) sampleUser
       = (t, Returned (None, u'))
     /\ wsServerSeq u' = 6 /\ wsConnID u' = "A")
  /\ wsEventHandler (Sample.postEvent "post_edited" 8) sampleUser
     = ([mlog_Warn "Missed websocket event" 8 5],
        Returned (Some errSeqMismatch, sampleUser)).
Proof.
  destruct (wsEventHandler_sequence_check
              (Sample.postEvent "post_edited" 5) sampleUser)
    as (t1 & u1 & Hhello & _ & Hacc & _).
  destruct (wsEventHandler_sequence_check
              (Sample.postEvent "post_edited" 8) sampleUser)
    as (t2 & u2 & Hhello2 & _ & _ & Hrej).
  inversion Hhello; subst t1 u1. inversion Hhello2; subst t2 u2.
  split.
  - destruct (Hacc eq_refl) as [_ Hstate].
    eexists _, _. split; [vm_compute; reflexivity |].
    split; reflexivity.
  - exact (Hrej ltac:(discriminate)).
Defined.

(** C3: a hello from connection "B" while "A" is recorded. *)
Lemma wsEventHandler_hello_connection_id_witness :
  EventType (Sample.helloFrom "B" 0) = WebsocketEventHello
  /\ GetData (Sample.helloFrom "B" 0) !! "connection_id"
     = Some (any_string "B")
  /\ exists t u1,
       wsEventHandler_hello (Sample.helloFrom "B" 0) sampleUser
         = (t, Returned (tt, u1))
       /\ wsConnID u1 = "B" /\ wsServerSeq u1 = 0.
Proof.
  split; [reflexivity |]. split; [reflexivity |].
  destruct (wsEventHandler_hello_connection_id
              (Sample.helloFrom "B" 0) sampleUser "B" eq_refl eq_refl)
    as (t & u1 & Hrun & Hid & _ & Hreset & _).
  exists t, u1. split; [exact Hrun |]. split; [exact Hid |].
  apply Hreset; discriminate.
Defined.

(** C4 (the claim as written fails). A posted event with the expected
    sequence number but without its "post" field: the handler returns the
    error "post data is missing", the error is sent on the error channel,
    and the event is sent on [wsEventChan] all the same. *)
Lemma listen_republishes_after_error :
  wsEventHandler (Sample.event "posted" ∅ 5) sampleUser
    = ([], Returned (Some (errors_New "post data is missing"),
                     with_wsServerSeq 6 sampleUser))
  /\ exists t st',
       listen_step (Sample.active sampleUser 0)
         (recv_EventChannel (Sample.event "posted" ∅ 5)) = Some (t, st')
       /\ t = [send_errChan (fmt_Errorf_w
                 "userentity: error in wsEventHandler: "
                 (errors_New "post data is missing"));
               send_wsEventChan (Sample.event "posted" ∅ 5)]
       /\ count is_send_wsEventChan t = 1%nat
       /\ count is_send_wsEventChan t <> 0%nat.
Proof.
  split; [vm_compute; reflexivity |].
  eexists _, _. split; [vm_compute; reflexivity |].
  repeat split; discriminate.
Qed.

Lemma listen_republishes_event_witness :
  at_ (Sample.active sampleUser 0) = Active
  /\ wsEventHandler (Sample.event "posted" ∅ 5) sampleUser
     = ([], Returned (Some (errors_New "post data is missing"),
                      with_wsServerSeq 6 sampleUser))
  /\ listen_step (Sample.active sampleUser 0)
       (recv_EventChannel (Sample.event "posted" ∅ 5))
     = Some ([send_errChan (fmt_Errorf_w
                "userentity: error in wsEventHandler: "
                (errors_New "post data is missing"));
              send_wsEventChan (Sample.event "posted" ∅ 5)],
             with_ue (with_wsServerSeq 6 sampleUser)
               (Sample.active sampleUser 0)).
Proof.
  assert (Hrun : wsEventHandler (Sample.event "posted" ∅ 5) sampleUser
                 = ([], Returned (Some (errors_New "post data is missing"),
                                  with_wsServerSeq 6 sampleUser)))
    by (vm_compute; reflexivity).
  split; [reflexivity |]. split; [exact Hrun |].
  destruct (listen_republishes_event (Sample.active sampleUser 0)
              (Sample.event "posted" ∅ 5) []
              (Some (errors_New "post data is missing"))
              (with_wsServerSeq 6 sampleUser) eq_refl Hrun)
    as (_ & _ & _ & Herr & _).
  exact (Herr _ eq_refl ltac:(discriminate)).
Defined.

(** C7: an edit of post p1 of town-square, with town-square active, with
    off-topic active, with no channel active, and with a failing store. *)
Lemma handlePostEvent_create_or_edit_witness :
  GetData (Sample.postEvent "post_edited" 5) !! "post"
    = Some (any_string "{}")
  /\ json_Unmarshal_Post "{}" = inr (Some Sample.post1)
  /\ handlePostEvent (Sample.postEvent "post_edited" 5) sampleUser
     = ([call_CurrentChannel; call_SetPost Sample.post1],
        Returned (None,
          with_store
            (record_write (call_SetPost Sample.post1) Sample.store0)
            sampleUser))
  /\ handlePostEvent (Sample.postEvent "post_edited" 5)
       Sample.viewingOffTopic
     = ([call_CurrentChannel], Returned (None, Sample.viewingOffTopic))
  /\ handlePostEvent (Sample.postEvent "post_edited" 5)
       Sample.viewingNothing
     = ([call_CurrentChannel], Returned (None, Sample.viewingNothing))
  /\ handlePostEvent (Sample.postEvent "post_edited" 5)
       Sample.channelLookupFails
     = ([call_CurrentChannel],
        Returned (Some (fmt_Errorf_w
                    "failed to get current channel from store: "
                    Sample.storeClosed),
                  Sample.channelLookupFails)).
Proof.
  split; [reflexivity |]. split; [reflexivity |].
  split; [| split; [| split]].
  - exact (proj1 (proj1 (handlePostEvent_create_or_edit
      (Sample.postEvent "post_edited" 5) "{}" Sample.post1 sampleUser
      (or_intror eq_refl) eq_refl eq_refl) Sample.townSquare
      eq_refl eq_refl)).
  - exact (proj1 (proj1 (proj2 (handlePostEvent_create_or_edit
      (Sample.postEvent "post_edited" 5) "{}" Sample.post1
      Sample.viewingOffTopic
      (or_intror eq_refl) eq_refl eq_refl)) Sample.offTopic
      eq_refl ltac:(discriminate))).
  - exact (proj1 (proj1 (proj2 (proj2 (handlePostEvent_create_or_edit
      (Sample.postEvent "post_edited" 5) "{}" Sample.post1
      Sample.viewingNothing
      (or_intror eq_refl) eq_refl eq_refl))) None
      memstore_ErrChannelNotFound eq_refl eq_refl)).
  - exact (proj2 (proj2 (proj2 (handlePostEvent_create_or_edit
      (Sample.postEvent "post_edited" 5) "{}" Sample.post1
      Sample.channelLookupFails
      (or_intror eq_refl) eq_refl eq_refl))) None
      Sample.storeClosed eq_refl eq_refl).
Defined.

(** C8: the removal of a reaction the store has, and of one it has not. *)
Lemma handleReactionEvent_remove_witness :
  GetData (Sample.reactionEvent "reaction_removed" 5) !! "reaction"
    = Some (any_string "{}")
  /\ json_Unmarshal_Reaction "{}" = inr (Some Sample.thumbsUp)
  /\ (exists u',
        handleReactionEvent (Sample.reactionEvent "reaction_removed" 5)
          sampleUser
        = ([call_CurrentChannel; call_Post "p1";
            call_DeleteReaction Sample.thumbsUp],
           Returned (None, u')))
  /\ (exists u',
        handleReactionEvent (Sample.reactionEvent "reaction_removed" 5)
          Sample.reactionGone
        = ([call_CurrentChannel; call_Post "p1";
            call_DeleteReaction Sample.thumbsUp],
           Returned (Some (errors_New "could not find reaction in the store"),
                     u'))).
Proof.
  split; [reflexivity |]. split; [reflexivity |]. split.
  - eexists.
    exact (proj2 (handleReactionEvent_remove
      (Sample.reactionEvent "reaction_removed" 5) "{}" Sample.thumbsUp
      Sample.townSquare Sample.post1 sampleUser
      eq_refl eq_refl eq_refl eq_refl eq_refl eq_refl) _ eq_refl).
  - eexists.
    exact (proj1 (handleReactionEvent_remove
      (Sample.reactionEvent "reaction_removed" 5) "{}" Sample.thumbsUp
      Sample.townSquare Sample.post1 Sample.reactionGone
      eq_refl eq_refl eq_refl eq_refl eq_refl eq_refl) _ eq_refl).
Defined.

(** A typing message from a connected and from an unconnected user. *)
Lemma SendTypingEvent_witness :
  SendTypingEvent "town-square" "" (Sample.user Sample.store0 "" 0 false)
    = ([], Returned (Some (errors_New "user is not connected"),
                     Sample.user Sample.store0 "" 0 false))
  /\ SendTypingEvent "town-square" "p1" sampleUser
     = ([send_wsTyping {| channelId := "town-square"; parentId := "p1" |}],
        Returned (None, sampleUser)).
Proof.
  split.
  - exact (proj1 (SendTypingEvent_spec "town-square" ""
      (Sample.user Sample.store0 "" 0 false)) eq_refl).
  - exact (proj1 (proj2 (SendTypingEvent_spec "town-square" "p1" sampleUser))
      eq_refl).
Defined.

(** C10: the store fails to look the post up, without and with a post. *)
Lemma handleReactionEvent_lookup_error_witness :
  GetData (Sample.reactionEvent "reaction_added" 5) !! "reaction"
    = Some (any_string "{}")
  /\ errors_Is (Some Sample.storeClosed) memstore_ErrPostNotFound = false
  /\ handleReactionEvent (Sample.reactionEvent "reaction_added" 5)
       Sample.postLookupFails
     = ([call_CurrentChannel; call_Post "p1"], Panicked nilDereference)
  /\ handleReactionEvent (Sample.reactionEvent "reaction_added" 5)
       Sample.postLookupFailsWithPost
     = ([call_CurrentChannel; call_Post "p1"],
        Returned (Some (fmt_Errorf_w "failed to get post from store: "
                          Sample.storeClosed),
                  Sample.postLookupFailsWithPost)).
Proof.
  split; [reflexivity |]. split; [reflexivity |]. split.
  - exact (proj1 (handleReactionEvent_lookup_error
      (Sample.reactionEvent "reaction_added" 5) "{}" Sample.thumbsUp
      Sample.townSquare Sample.storeClosed Sample.postLookupFails
      eq_refl eq_refl eq_refl eq_refl) eq_refl).
  - exact (proj2 (proj2 (handleReactionEvent_lookup_error
      (Sample.reactionEvent "reaction_added" 5) "{}" Sample.thumbsUp
      Sample.townSquare Sample.storeClosed Sample.postLookupFailsWithPost
      eq_refl eq_refl eq_refl eq_refl)) Sample.post1 eq_refl eq_refl).
Defined.

(** * Further properties *)

(** ** The back-off over its whole range *)

(** X1. Whatever the fail count, also a negative one or one past the
    overflow, the wait never exceeds five minutes; up to [lastExactFailCount]
    it is at least three seconds, so it is positive. *)
Theorem getWaitTime_range f :
  getWaitTime f <= maxWebsocketReconnectDuration
  /\ (f <= lastExactFailCount ->
      minWebsocketReconnectDuration <= getWaitTime f /\ 0 < getWaitTime f).
Proof.
  split; [apply getWaitTime_le_max |].
  intros Hf. pose proof (getWaitTime_bounds_exact_range f Hf) as [Hlo _].
  rewrite minWebsocketReconnectDuration_ns in Hlo.
  rewrite minWebsocketReconnectDuration_ns. lia.
Qed.

(** X2. Up to [lastExactFailCount] a larger fail count never gives a shorter
    wait, below the threshold as well as above it. *)
Theorem getWaitTime_monotone f g :
  f <= g -> g <= lastExactFailCount -> getWaitTime f <= getWaitTime g.
Proof.
  intros Hfg Hg.
  destruct (Z.le_gt_cases f maxWebsocketFails) as [Hle | Hgt].
  - rewrite (getWaitTime_base f Hle).
    apply (getWaitTime_bounds_exact_range g Hg).
  - apply getWaitTime_monotone_exact_range; assumption.
Qed.

Lemma getWaitTime_monotone_witness :
  8 <= 9 /\ 9 <= lastExactFailCount /\ getWaitTime 8 <= getWaitTime 9.
Proof.
  split; [lia |]. split; [unfold lastExactFailCount; lia |].
  apply (getWaitTime_monotone 8 9); [lia | unfold lastExactFailCount; lia].
Defined.

(** X3. The shape of the back-off up to [lastExactFailCount]: three seconds
    exactly for the fail counts up to 7, 192 and 243 seconds for 8 and 9, and
    five minutes exactly from 10 on. *)
Theorem getWaitTime_profile f :
  f <= lastExactFailCount ->
  (getWaitTime f = minWebsocketReconnectDuration <-> f <= 7)
  /\ (f = 8 -> getWaitTime f = 192 * time.Second)
  /\ (f = 9 -> getWaitTime f = 243 * time.Second)
  /\ (getWaitTime f = maxWebsocketReconnectDuration <-> 10 <= f).
Proof.
  intros Hf.
  destruct (Z.le_gt_cases f maxWebsocketFails) as [Hle | Hgt].
  - rewrite (getWaitTime_base f Hle).
    rewrite minWebsocketReconnectDuration_ns,
      maxWebsocketReconnectDuration_ns.
    unfold maxWebsocketFails in Hle.
    repeat split; intros; subst; try lia.
  - rewrite getWaitTime_exact by lia.
    unfold clampedQuadratic, maxWebsocketFails, time.Second in *.
    rewrite minWebsocketReconnectDuration_ns,
      maxWebsocketReconnectDuration_ns.
    assert (Hcases : f = 8 \/ f = 9 \/ 10 <= f) by lia.
    destruct Hcases as [-> | [-> | Hbig]].
    + vm_compute. repeat split; intros; congruence.
    + vm_compute. repeat split; intros; congruence.
    + assert (100 <= f * f) by nia.
      rewrite Z.min_r by lia.
      repeat split; intros; subst; lia.
Qed.

Lemma getWaitTime_profile_witness :
  12 <= lastExactFailCount
  /\ getWaitTime 12 = maxWebsocketReconnectDuration.
Proof.
  split; [unfold lastExactFailCount; lia |].
  apply (getWaitTime_profile 12); [unfold lastExactFailCount; lia | lia].
Defined.

(** ** Payloads that cannot be used *)

Section HandlerEdgeCases.

Context {S : Type} `{MutableUserStore S} `{JSON}.

(** [handleReactionEvent] with a payload it cannot use: a missing
    "reaction" field, a field that is no string, or a string the decoder
    refuses. It returns the matching error, makes no store call and leaves
    the entity as it was, whatever the event type. *)
Lemma handleReactionEvent_bad_payload ev (u : @UserEntity S) :
  (GetData ev !! "reaction" = None ->
   handleReactionEvent ev u =
     ([], Returned (Some (errors_New "reaction data is missing"), u)))
  /\ (forall T,
        GetData ev !! "reaction" = Some (any_other T) ->
        handleReactionEvent ev u =
          ([], Returned (Some (fmt_Errorf
             ("type of the reaction data should be a string, but it is "
              +:+ T)), u)))
  /\ (forall data err,
        GetData ev !! "reaction" = Some (any_string data) ->
        json_Unmarshal_Reaction data = inl err ->
        handleReactionEvent ev u = ([], Returned (Some err, u))).
Proof.
  unfold handleReactionEvent.
  split; [| split].
  - intros ->. reflexivity.
  - intros T ->. reflexivity.
  - intros data err -> ->. reflexivity.
Qed.

(** [handlePostEvent] with a payload it cannot use: a missing "post"
    field, a field that is no string, or a string the decoder refuses. It
    returns the matching error, makes no store call and leaves the entity as
    it was, for a delete as well as for a create or an edit. *)
Lemma handlePostEvent_bad_payload ev (u : @UserEntity S) :
  (GetData ev !! "post" = None ->
   handlePostEvent ev u =
     ([], Returned (Some (errors_New "post data is missing"), u)))
  /\ (forall T,
        GetData ev !! "post" = Some (any_other T) ->
        handlePostEvent ev u =
          ([], Returned (Some (fmt_Errorf
             ("type of the post data should be a string, but it is "
              +:+ T)), u)))
  /\ (forall data err,
        GetData ev !! "post" = Some (any_string data) ->
        json_Unmarshal_Post data = inl err ->
        handlePostEvent ev u = ([], Returned (Some err, u))).
Proof.
  unfold handlePostEvent.
  split; [| split].
  - intros ->. reflexivity.
  - intros T ->. reflexivity.
  - intros data err -> ->. reflexivity.
Qed.

(** X5. A delete event whose payload decodes to [post]: the handler asks
    the store to delete the post by its id and returns the answer of the
    store. It does not look the active channel up, so the post is deleted
    whatever channel it is in. *)
Theorem handlePostEvent_delete ev data post (u : @UserEntity S) :
  EventType ev = WebsocketEventPostDeleted ->
  GetData ev !! "post" = Some (any_string data) ->
  json_Unmarshal_Post data = inr (Some post) ->
  handlePostEvent ev u =
    ([call_DeletePost (Post_Id post)],
     Returned (snd (store_DeletePost (store u) (Post_Id post)),
               with_store (fst (store_DeletePost (store u) (Post_Id post))) u))
  /\ count is_store_call (fst (handlePostEvent ev u)) = 1%nat.
Proof.
  intros Htype Hdata Hdecode.
  unfold handlePostEvent. rewrite Hdata, Hdecode, Htype.
  unfold_monad. simpl.
  destruct (store_DeletePost (store u) (Post_Id post)); simpl. auto.
Qed.

(** X6. A payload that decodes to a nil post (the document null): a create
    or an edit panics once the store has named an active channel, and is
    harmless when the channel lookup fails; a delete panics at once. *)
Theorem handlePostEvent_nil_post ev data (u : @UserEntity S) :
  GetData ev !! "post" = Some (any_string data) ->
  json_Unmarshal_Post data = inr None ->
  (EventType ev = WebsocketEventPosted
   \/ EventType ev = WebsocketEventPostEdited ->
   (forall c,
      store_CurrentChannel (store u) = (Some c, None) ->
      handlePostEvent ev u = ([call_CurrentChannel], Panicked nilDereference))
   /\ (forall c e,
         store_CurrentChannel (store u) = (c, Some e) ->
         exists err,
           handlePostEvent ev u = ([call_CurrentChannel], Returned (err, u))))
  /\ (EventType ev = WebsocketEventPostDeleted ->
      handlePostEvent ev u = ([], Panicked nilDereference)).
Proof.
  intros Hdata Hdecode. unfold handlePostEvent. rewrite Hdata, Hdecode.
  split.
  - intros Htype. rewrite (create_or_edit_test ev Htype).
    unfold_monad. simpl. split.
    + intros c ->. reflexivity.
    + intros c e ->. simpl.
      destruct (negb (errors_Is_chain e memstore_ErrChannelNotFound)); eauto.
  - intros ->. reflexivity.
Qed.

(** X7. A payload that decodes to a nil reaction: the handler panics once
    the store has named an active channel, before any post is looked up, and
    returns nil when no channel is active. *)
Theorem handleReactionEvent_nil_reaction ev data (u : @UserEntity S) :
  GetData ev !! "reaction" = Some (any_string data) ->
  json_Unmarshal_Reaction data = inr None ->
  (forall c,
     store_CurrentChannel (store u) = (Some c, None) ->
     handleReactionEvent ev u =
       ([call_CurrentChannel], Panicked nilDereference))
  /\ (store_CurrentChannel (store u) = (None, None)
      \/ store_CurrentChannel (store u)
         = (None, Some memstore_ErrChannelNotFound) ->
      handleReactionEvent ev u = ([call_CurrentChannel], Returned (None, u))).
Proof.
  intros Hdata Hdecode. unfold handleReactionEvent. rewrite Hdata, Hdecode.
  unfold_monad. simpl. split.
  - intros c ->. reflexivity.
  - intros [-> | ->]; reflexivity.
Qed.

(** ** Reactions: the remaining paths *)

(** X8. A reaction-added event, with a channel active and the post of the
    reaction known and in that channel: the only store write is one
    [SetReaction], and the handler returns what the store answers. *)
Theorem handleReactionEvent_add ev data reaction c p (u : @UserEntity S) :
  EventType ev = WebsocketEventReactionAdded ->
  GetData ev !! "reaction" = Some (any_string data) ->
  json_Unmarshal_Reaction data = inr (Some reaction) ->
  store_CurrentChannel (store u) = (Some c, None) ->
  store_Post (store u) (Reaction_PostId reaction) = (Some p, None) ->
  Post_ChannelId p = Channel_Id c ->
  handleReactionEvent ev u =
    ([call_CurrentChannel; call_Post (Reaction_PostId reaction);
      call_SetReaction reaction],
     Returned (snd (store_SetReaction (store u) reaction),
               with_store (fst (store_SetReaction (store u) reaction)) u))
  /\ count is_store_mutation (fst (handleReactionEvent ev u)) = 1%nat.
Proof.
  intros Htype Hdata Hdecode Hcur Hpost Hchan.
  rewrite (handleReactionEvent_after_lookup ev data reaction c u
             Hdata Hdecode Hcur).
  rewrite Hpost, Htype. simpl.
  apply String.eqb_eq in Hchan. rewrite Hchan. simpl. auto.
Qed.

(** X9. When a reaction does not concern what the user is viewing, the
    handler returns nil and writes nothing: no channel is active (the post
    is then not even looked up); the store does not know the post; or the
    post is in another channel. A channel lookup that fails for another
    reason is returned, wrapped, whatever channel came with it. *)
Theorem handleReactionEvent_ignored ev data reaction (u : @UserEntity S) :
  GetData ev !! "reaction" = Some (any_string data) ->
  json_Unmarshal_Reaction data = inr (Some reaction) ->
  (store_CurrentChannel (store u) = (None, None)
   \/ (exists e, store_CurrentChannel (store u) = (None, Some e)
                 /\ errors_Is (Some e) memstore_ErrChannelNotFound = true) ->
   handleReactionEvent ev u = ([call_CurrentChannel], Returned (None, u)))
  /\ (forall co e,
        store_CurrentChannel (store u) = (co, Some e) ->
        errors_Is (Some e) memstore_ErrChannelNotFound = false ->
        handleReactionEvent ev u =
          ([call_CurrentChannel],
           Returned (Some (fmt_Errorf_w
                       "failed to get current channel from store: " e), u)))
  /\ (forall c po e,
        store_CurrentChannel (store u) = (Some c, None) ->
        store_Post (store u) (Reaction_PostId reaction) = (po, Some e) ->
        errors_Is (Some e) memstore_ErrPostNotFound = true ->
        handleReactionEvent ev u =
          ([call_CurrentChannel; call_Post (Reaction_PostId reaction)],
           Returned (None, u)))
  /\ (forall c p,
        store_CurrentChannel (store u) = (Some c, None) ->
        store_Post (store u) (Reaction_PostId reaction) = (Some p, None) ->
        Post_ChannelId p <> Channel_Id c ->
        handleReactionEvent ev u =
          ([call_CurrentChannel; call_Post (Reaction_PostId reaction)],
           Returned (None, u))).
Proof.
  intros Hdata Hdecode. split; [| split; [| split]].
  - intros Hcur. unfold handleReactionEvent. rewrite Hdata, Hdecode.
    unfold_monad. simpl.
    destruct Hcur as [-> | (e & -> & His)]; [reflexivity |].
    simpl in *. rewrite His. reflexivity.
  - intros co e Hcur His. unfold handleReactionEvent.
    rewrite Hdata, Hdecode. unfold_monad. simpl. rewrite Hcur.
    simpl in *. rewrite His. reflexivity.
  - intros c po e Hcur Hpost His.
    rewrite (handleReactionEvent_after_lookup ev data reaction c u
               Hdata Hdecode Hcur).
    rewrite Hpost, His. reflexivity.
  - intros c p Hcur Hpost Hdiff.
    rewrite (handleReactionEvent_after_lookup ev data reaction c u
               Hdata Hdecode Hcur).
    rewrite Hpost. simpl.
    apply String.eqb_neq in Hdiff. rewrite Hdiff. reflexivity.
Qed.

(** ** What an event can change *)

Lemma with_store_same (u : @UserEntity S) : with_store (store u) u = u.
Proof. destruct u; reflexivity. Qed.

Ltac frame_cases :=
  repeat (break_match_hyp; simpl in *; invert_returns);
  rewrite ?with_store_same; unfold count; simpl;
  repeat split; intros; try reflexivity; try discriminate; try lia.

Lemma handleReactionEvent_frame ev (u u' : @UserEntity S) t err :
  handleReactionEvent ev u = (t, Returned (err, u')) ->
  u' = with_store (store u') u
  /\ (count is_store_mutation t <= 1)%nat
  /\ (count is_store_mutation t = 0%nat -> u' = u).
Proof.
  unfold handleReactionEvent. unfold_monad. intros Hrun. frame_cases.
Qed.

Lemma handlePostEvent_frame ev (u u' : @UserEntity S) t err :
  handlePostEvent ev u = (t, Returned (err, u')) ->
  u' = with_store (store u') u
  /\ (count is_store_mutation t <= 1)%nat
  /\ (count is_store_mutation t = 0%nat -> u' = u).
Proof.
  unfold handlePostEvent. unfold_monad. intros Hrun. frame_cases.
Qed.

Lemma wsEventHandler_dispatch_frame ev (u u' : @UserEntity S) t err :
  wsEventHandler_dispatch ev u = (t, Returned (err, u')) ->
  u' = with_store (store u') u
  /\ (count is_store_mutation t <= 1)%nat
  /\ (count is_store_mutation t = 0%nat -> u' = u).
Proof.
  unfold wsEventHandler_dispatch. intros Hrun.
  repeat break_match_hyp;
    eauto using handleReactionEvent_frame, handlePostEvent_frame.
  unfold ret in Hrun. invert_returns.
  rewrite with_store_same. auto.
Qed.

Lemma wsEventHandler_hello_frame ev (u u1 : @UserEntity S) t1 :
  wsEventHandler_hello ev u = (t1, Returned (tt, u1)) ->
  store u1 = store u
  /\ connected u1 = connected u
  /\ config_WebSocketURL u1 = config_WebSocketURL u
  /\ client_AuthToken u1 = client_AuthToken u
  /\ count is_store_call t1 = 0%nat
  /\ count is_store_mutation t1 = 0%nat.
Proof.
  unfold wsEventHandler_hello. unfold_monad. intros Hrun.
  repeat (break_match_hyp; simpl in *; invert_returns); auto 10.
Qed.

(** X10. Whatever the event, when [wsEventHandler] returns it has written
    to the store at most once, it has left the store as it was unless it
    wrote, and it has not touched the connected flag, the URL or the token
    of the entity. *)
Theorem wsEventHandler_frame ev (u u' : @UserEntity S) t err :
  wsEventHandler ev u = (t, Returned (err, u')) ->
  (count is_store_mutation t <= 1)%nat
  /\ (count is_store_mutation t = 0%nat -> store u' = store u)
  /\ connected u' = connected u
  /\ config_WebSocketURL u' = config_WebSocketURL u
  /\ client_AuthToken u' = client_AuthToken u.
Proof.
  intros Hrun.
  destruct (wsEventHandler_hello_returns ev u) as (t1 & u1 & Hhello).
  destruct (wsEventHandler_hello_frame ev u u1 t1 Hhello)
    as (Hstore & Hconn & Hurl & Htok & _ & Hmut1).
  destruct (wsEventHandler_after_hello ev u u1 t1 Hhello) as [Hacc Hrej].
  destruct (Z.eq_dec (GetSequence ev) (wsServerSeq u1)) as [Heq | Hneq].
  - rewrite (Hacc Heq) in Hrun.
    destruct (wsEventHandler_dispatch ev _) as [td rd] eqn:Hd.
    simpl in Hrun. inversion Hrun; subst.
    destruct (wsEventHandler_dispatch_frame _ _ _ _ _ Hd)
      as (Hu' & Hle & Hsame).
    rewrite count_app, Hmut1. simpl.
    split; [exact Hle |]. split.
    + intros Hzero. rewrite (Hsame Hzero). simpl. exact Hstore.
    + rewrite Hu'. simpl. auto.
  - rewrite (Hrej Hneq) in Hrun. inversion Hrun; subst.
    rewrite count_app, Hmut1. simpl. auto 10.
Qed.

(** X11. An event that is no hello with a connection id and belongs to
    neither event family, with the expected sequence number: the handler
    returns nil, calls nothing, and only advances the sequence number. *)
Theorem wsEventHandler_other_event ev (u : @UserEntity S) :
  helloConnectionID ev = None ->
  EventType ev ∉ [WebsocketEventReactionAdded; WebsocketEventReactionRemoved;
                  WebsocketEventPosted; WebsocketEventPostEdited;
                  WebsocketEventPostDeleted] ->
  GetSequence ev = wsServerSeq u ->
  wsEventHandler ev u =
    ([], Returned (None, with_wsServerSeq (Int64.add (wsServerSeq u) 1) u)).
Proof.
  intros Hno Hother Hseq.
  pose proof (wsEventHandler_hello_skip ev u Hno) as Hhello.
  destruct (wsEventHandler_after_hello ev u u [] Hhello) as [Hacc _].
  rewrite (Hacc Hseq), Hseq.
  repeat (apply not_elem_of_cons in Hother; destruct Hother as [? Hother]).
  unfold wsEventHandler_dispatch.
  repeat match goal with
  | Hne : EventType ev <> _ |- _ =>
      apply String.eqb_neq in Hne; rewrite Hne
  end.
  reflexivity.
Qed.

(** X12. An event whose sequence number is not the expected one never
    reaches the store: no store call is made and the store is as before. *)
Theorem wsEventHandler_reject_keeps_store ev (u u1 : @UserEntity S) t1 :
  wsEventHandler_hello ev u = (t1, Returned (tt, u1)) ->
  GetSequence ev <> wsServerSeq u1 ->
  exists t,
    wsEventHandler ev u = (t, Returned (Some errSeqMismatch, u1))
    /\ count is_store_call t = 0%nat
    /\ store u1 = store u.
Proof.
  intros Hhello Hneq.
  destruct (wsEventHandler_hello_frame ev u u1 t1 Hhello)
    as (Hstore & _ & _ & _ & Hcall & _).
  destruct (wsEventHandler_after_hello ev u u1 t1 Hhello) as [_ Hrej].
  eexists. split; [exact (Hrej Hneq) |].
  rewrite count_app, Hcall. auto.
Qed.

(** X13. A hello event that carries the connection id [connID] is checked
    against 0 when the recorded id is non-empty and different, and against
    the recorded sequence number otherwise. With that number it is accepted:
    the handler returns nil and the tracker becomes [connID] and the number
    plus one. With any other number it is rejected, and the tracker becomes
    [connID] and that expected number. The store is never called. *)
Theorem wsEventHandler_hello_event ev (u : @UserEntity S) connID :
  EventType ev = WebsocketEventHello ->
  GetData ev !! "connection_id" = Some (any_string connID) ->
  let expected :=
    if negb (String.eqb (wsConnID u) "")
       && negb (String.eqb (wsConnID u) connID)
    then 0 else wsServerSeq u in
  exists t u',
    wsEventHandler ev u =
      (t, Returned (if GetSequence ev =? expected
                    then None else Some errSeqMismatch, u'))
    /\ wsConnID u' = connID
    /\ wsServerSeq u' =
         (if GetSequence ev =? expected
          then Int64.add expected 1 else expected)
    /\ store u' = store u
    /\ count is_store_call t = 0%nat.
Proof.
  intros Htype Hdata. cbv zeta.
  pose proof (helloConnectionID_hello ev connID Htype Hdata) as Hid.
  destruct (wsEventHandler_hello_run ev u connID Hid) as [t1 Hrun].
  destruct (wsEventHandler_hello_frame _ _ _ _ Hrun)
    as (_ & _ & _ & _ & Hcall & _).
  destruct (wsEventHandler_after_hello ev u _ t1 Hrun) as [Hacc Hrej].
  assert (Hexp : forall b : bool,
            wsServerSeq (with_wsConnID connID
                           (if b then with_wsServerSeq 0 u else u))
            = if b then 0 else wsServerSeq u)
    by (intros []; reflexivity).
  rewrite Hexp in Hacc, Hrej.
  destruct (Z.eqb_spec (GetSequence ev)
              (if negb (String.eqb (wsConnID u) "")
                  && negb (String.eqb (wsConnID u) connID)
               then 0 else wsServerSeq u)) as [Heq | Hneq].
  - specialize (Hacc Heq).
    assert (Hd : forall v : @UserEntity S,
              wsEventHandler_dispatch ev v = ([], Returned (None, v))).
    { intros v. unfold wsEventHandler_dispatch. rewrite Htype.
      reflexivity. }
    rewrite Hd in Hacc. simpl in Hacc.
    eexists _, _. split; [exact Hacc |].
    rewrite app_nil_r. simpl.
    split; [reflexivity |]. split; [rewrite Heq; reflexivity |].
    split; [| exact Hcall].
    destruct (_ && _); reflexivity.
  - specialize (Hrej Hneq).
    eexists _, _. split; [exact Hrej |].
    split; [reflexivity |]. split; [apply Hexp |].
    split; [destruct (_ && _); reflexivity |].
    rewrite count_app, Hcall. reflexivity.
Qed.

(** X14. Whatever the event and however the handler ends, by returning or
    by a panic, all it has done to the outside is to call the store and to
    write log lines: it never calls the transport, sends on a channel, arms a
    timer or moves the connection counter. *)
Theorem wsEventHandler_only_store_and_log ev (u : @UserEntity S) :
  Forall (fun e => is_store_or_log e = true) (fst (wsEventHandler ev u))
  /\ count is_transport_call (fst (wsEventHandler ev u)) = 0%nat
  /\ count is_send_wsEventChan (fst (wsEventHandler ev u)) = 0%nat
  /\ count is_send_errChan (fst (wsEventHandler ev u)) = 0%nat
  /\ count is_time_After (fst (wsEventHandler ev u)) = 0%nat.
Proof.
  destruct (wsEventHandler ev u) as [t r] eqn:Hrun. simpl.
  pose proof (wsEventHandler_trace ev u t r Hrun) as Hall.
  split; [exact Hall |].
  repeat split; apply (count_none _ is_store_or_log); try exact Hall;
    intros e He; destruct e; simpl in *; congruence.
Qed.

End HandlerEdgeCases.

(** ** Runs of the listen loop *)

Lemma store_or_log_not_inc e :
  is_store_or_log e = true -> is_incWebSocketConnections e = false.
Proof. destruct e; simpl; congruence. Qed.

Lemma store_or_log_not_dec e :
  is_store_or_log e = true -> is_decWebSocketConnections e = false.
Proof. destruct e; simpl; congruence. Qed.

Lemma store_or_log_not_closed e :
  is_store_or_log e = true -> is_close_wsClosed e = false.
Proof. destruct e; simpl; congruence. Qed.

Lemma sent_events_app t1 t2 :
  sent_events (t1 ++ t2) = sent_events t1 ++ sent_events t2.
Proof. unfold sent_events. apply omap_app. Qed.

Lemma sent_events_none t :
  Forall (fun e => is_store_or_log e = true) t -> sent_events t = [].
Proof.
  induction 1 as [| e t He _ IH]; [reflexivity |].
  change (e :: t) with ([e] ++ t). rewrite sent_events_app, IH.
  destruct e; simpl in *; congruence.
Qed.

(** Splits a step of the loop into its cases. *)
Ltac step_inv Hstep :=
  unfold listen_step, waitStep, channelClosed, failAndWait in Hstep;
  repeat match type of Hstep with
  | context [match ?x with _ => _ end] => destruct x eqn:?
  end;
  try discriminate Hstep; inversion Hstep; subst; clear Hstep.

(** Rewrites the counts over the trace of the handler away. *)
Ltac handler_trace :=
  repeat match goal with
  | Hrun : wsEventHandler _ _ = (?l, _) |- _ =>
      let Hall := fresh "Hall" in
      pose proof (wsEventHandler_trace _ _ _ _ Hrun) as Hall;
      pose proof (count_none _ _ l store_or_log_not_inc Hall);
      pose proof (count_none _ _ l store_or_log_not_dec Hall);
      pose proof (count_none _ _ l store_or_log_not_closed Hall);
      pose proof (count_none _ _ l store_or_log_not_timer Hall);
      pose proof (sent_events_none l Hall);
      clear Hrun
  end.

(** Computes the counts over the trace of one step. *)
Ltac count_step :=
  rewrite ?count_app, ?sent_events_app;
  repeat match goal with
  | Hc : count _ _ = 0%nat |- _ => rewrite Hc
  | Hs : sent_events _ = [] |- _ => rewrite Hs
  end;
  unfold count, sent_events; simpl;
  repeat match goal with Hp : at_ _ = _ |- _ => rewrite Hp end;
  simpl; try reflexivity; try lia.

Section ListenRuns.

Context {S : Type} `{MutableUserStore S} `{JSON}.

Lemma listen_run_cons (st st' : @listenState S) i inputs t :
  listen_run st (i :: inputs) = Some (t, st') ->
  exists t1 st1 t2,
    listen_step st i = Some (t1, st1)
    /\ listen_run st1 inputs = Some (t2, st')
    /\ t = t1 ++ t2.
Proof.
  simpl. intros Hrun.
  destruct (listen_step st i) as [[t1 st1] |] eqn:Hstep; [| discriminate].
  destruct (listen_run st1 inputs) as [[t2 st2] |] eqn:Hrest; [| discriminate].
  inversion Hrun; subst. exists t1, st1, t2. auto.
Qed.

(** *** The connection counter *)

Lemma listen_step_balance (st st' : @listenState S) i t :
  listen_step st i = Some (t, st') ->
  (count is_incWebSocketConnections t + holdsConnection (at_ st)
   = count is_decWebSocketConnections t + holdsConnection (at_ st'))%nat.
Proof.
  intros Hstep. step_inv Hstep; handler_trace; count_step.
Qed.

(** X15. Over every run of the loop the connection counter is balanced:
    the increments exceed the decrements by one exactly while the loop holds
    a connection, and not at all once it waits, reconnects or has
    returned. *)
Theorem listen_connection_balance inputs : forall (st st' : @listenState S) t,
  listen_run st inputs = Some (t, st') ->
  (count is_incWebSocketConnections t + holdsConnection (at_ st)
   = count is_decWebSocketConnections t + holdsConnection (at_ st'))%nat.
Proof.
  induction inputs as [| i inputs IH]; intros st st' t Hrun.
  - simpl in Hrun. inversion Hrun; subst. reflexivity.
  - apply listen_run_cons in Hrun.
    destruct Hrun as (t1 & st1 & t2 & Hstep & Hrest & ->).
    apply listen_step_balance in Hstep. apply IH in Hrest.
    rewrite !count_app. lia.
Qed.

(** *** The fail count *)

Lemma listen_step_fail_count (st st' : @listenState S) i t :
  listen_step st i = Some (t, st') ->
  Int64.min_int <= connectionFailCount st < Int64.max_int ->
  connectionFailCount st' =
    connectionFailCount st + Z.of_nat (count is_time_After t)
  /\ (count is_time_After t <= 1)%nat.
Proof.
  intros Hstep Hrange. step_inv Hstep; handler_trace;
    rewrite ?Int64_add_1_small by exact Hrange; count_step.
Qed.

(** X16. The fail count is never reset, not even by a successful connect:
    over every run it grows by exactly the number of timers armed, one per
    failed connect and one per lost connection, and so never decreases.
    (The count is taken not to leave the int range during the run.) *)
Theorem listen_fail_count_counts_timers inputs :
  forall (st st' : @listenState S) t,
  listen_run st inputs = Some (t, st') ->
  Int64.min_int <= connectionFailCount st ->
  connectionFailCount st + Z.of_nat (length inputs) <= Int64.max_int ->
  connectionFailCount st' =
    connectionFailCount st + Z.of_nat (count is_time_After t)
  /\ connectionFailCount st <= connectionFailCount st'
  /\ (count is_time_After t <= length inputs)%nat.
Proof.
  induction inputs as [| i inputs IH]; intros st st' t Hrun Hmin Hmax.
  - simpl in Hrun. inversion Hrun; subst. simpl.
    unfold count. simpl. lia.
  - apply listen_run_cons in Hrun.
    destruct Hrun as (t1 & st1 & t2 & Hstep & Hrest & ->).
    simpl length in Hmax.
    apply listen_step_fail_count in Hstep; [| lia].
    destruct Hstep as [Hcount Hle].
    apply IH in Hrest; [| lia | lia].
    destruct Hrest as (Hcount' & Hmono & Hle').
    rewrite count_app. simpl length. lia.
Qed.

(** *** Closing *)

(** X17. The close signal is obeyed in each of the three selects, also in
    the middle of a back-off wait: the loop returns after closing
    [wsClosed] once, it closes the transport and decrements the counter
    exactly when it holds a connection, it leaves the entity and the fail
    count alone, and it accepts no input afterwards, so it never
    reconnects. *)
Theorem listen_close (st : @listenState S) :
  inSelect (at_ st) = true ->
  exists t st',
    listen_step st recv_wsClosing = Some (t, st')
    /\ at_ st' = Exited
    /\ ue st' = ue st
    /\ connectionFailCount st' = connectionFailCount st
    /\ count is_close_wsClosed t = 1%nat
    /\ count is_decWebSocketConnections t = holdsConnection (at_ st)
    /\ count is_transport_call t = holdsConnection (at_ st)
    /\ (forall i inputs, listen_run st' (i :: inputs) = None).
Proof.
  intros Hsel. unfold listen_step, waitStep.
  destruct (at_ st) eqn:Hat; try discriminate;
    (eexists _, _; split; [reflexivity |]);
    repeat split; simpl; intros; rewrite ?Hat; reflexivity.
Qed.

Lemma listen_step_closed (st st' : @listenState S) i t :
  listen_step st i = Some (t, st') ->
  count is_close_wsClosed t =
    match at_ st' with Exited => 1%nat | _ => 0%nat end
  /\ (at_ st' = Exited -> i = recv_wsClosing).
Proof.
  intros Hstep. step_inv Hstep; handler_trace; split; count_step;
    try discriminate; intros; try congruence.
Qed.

(** X18. Over every run, [wsClosed] is closed exactly once if the loop
    has returned and not at all otherwise; the loop returns only on the
    close signal, which is then the last input of the run. *)
Theorem listen_closes_once inputs : forall (st st' : @listenState S) t,
  listen_run st inputs = Some (t, st') ->
  at_ st <> Exited ->
  count is_close_wsClosed t =
    match at_ st' with Exited => 1%nat | _ => 0%nat end
  /\ (at_ st' = Exited ->
      exists before, inputs = before ++ [recv_wsClosing]).
Proof.
  induction inputs as [| i inputs IH]; intros st st' t Hrun Hstart.
  - simpl in Hrun. inversion Hrun; subst. split.
    + destruct (at_ st'); try reflexivity. congruence.
    + intros Hex. congruence.
  - apply listen_run_cons in Hrun.
    destruct Hrun as (t1 & st1 & t2 & Hstep & Hrest & ->).
    destruct (listen_step_closed _ _ _ _ Hstep) as [Hcount Hlast].
    destruct inputs as [| i2 inputs].
    + simpl in Hrest. inversion Hrest; subst.
      rewrite app_nil_r. split; [exact Hcount |].
      intros Hex. exists []. rewrite (Hlast Hex). reflexivity.
    + assert (Hst1 : at_ st1 <> Exited).
      { intros Hex. simpl in Hrest. unfold listen_step in Hrest.
        rewrite Hex in Hrest. discriminate. }
      destruct (IH st1 st' t2 Hrest Hst1) as [Hcount2 Hlast2].
      rewrite count_app, Hcount, Hcount2.
      split; [destruct (at_ st1); try reflexivity; congruence |].
      intros Hex. destruct (Hlast2 Hex) as [before Hbefore].
      exists (i :: before). rewrite Hbefore. reflexivity.
Qed.

(** *** What is sent on wsEventChan *)

Lemma listen_step_sent (st st' : @listenState S) i t :
  listen_step st i = Some (t, st') ->
  sent_events t `sublist_of` received_events [i].
Proof.
  intros Hstep. step_inv Hstep; handler_trace; count_step;
    unfold received_events; simpl;
    first [ reflexivity | apply sublist_nil_l ].
Qed.

(** X19. Over every run, the events sent on [wsEventChan] are events
    received from the transport, in the order received: the loop drops
    events (the rejected ones) but never invents, repeats or reorders
    one. *)
Theorem listen_sends_received_events inputs :
  forall (st st' : @listenState S) t,
  listen_run st inputs = Some (t, st') ->
  sent_events t `sublist_of` received_events inputs.
Proof.
  induction inputs as [| i inputs IH]; intros st st' t Hrun.
  - simpl in Hrun. inversion Hrun; subst. reflexivity.
  - apply listen_run_cons in Hrun.
    destruct Hrun as (t1 & st1 & t2 & Hstep & Hrest & ->).
    rewrite sent_events_app.
    change (i :: inputs) with ([i] ++ inputs).
    unfold received_events. rewrite omap_app.
    apply sublist_app.
    + exact (listen_step_sent _ _ _ _ Hstep).
    + exact (IH _ _ _ Hrest).
Qed.

(** One accepted event: the loop stays in the inner select only if the
    handler returned, and then the event was sent and the tracker
    advanced. *)
Lemma listen_step_accepted (st st' : @listenState S) ev t :
  helloConnectionID ev = None ->
  GetSequence ev = wsServerSeq (ue st) ->
  listen_step st (recv_EventChannel ev) = Some (t, st') ->
  at_ st' = Active ->
  at_ st = Active
  /\ sent_events t = [ev]
  /\ wsServerSeq (ue st') = Int64.add (wsServerSeq (ue st)) 1
  /\ wsConnID (ue st') = wsConnID (ue st)
  /\ connectionFailCount st' = connectionFailCount st.
Proof.
  intros Hno Hseq Hstep Hat'.
  assert (Hat : at_ st = Active).
  { unfold listen_step in Hstep. destruct (at_ st); try discriminate;
      try reflexivity; simpl in Hstep; discriminate. }
  pose proof (wsEventHandler_hello_skip ev (ue st) Hno) as Hhello.
  destruct (wsEventHandler_after_hello ev (ue st) (ue st) [] Hhello)
    as [Hacc _].
  specialize (Hacc Hseq). rewrite Hseq in Hacc.
  unfold listen_step in Hstep. rewrite Hat, Hacc in Hstep.
  destruct (wsEventHandler_dispatch ev _) as [td rd] eqn:Hd.
  pose proof (wsEventHandler_dispatch_trace _ _ _ _ Hd) as Htd.
  pose proof (sent_events_none td Htd) as Hsent.
  simpl in Hstep.
  destruct rd as [[err u] | reason].
  - apply wsEventHandler_dispatch_keeps_tracker in Hd.
    destruct Hd as [Hconn Hnum]. simpl in Hconn, Hnum.
    destruct err as [e |].
    + destruct (bool_decide (e = errSeqMismatch)).
      * inversion Hstep; subst. simpl in Hat'. discriminate.
      * inversion Hstep; subst. simpl.
        rewrite sent_events_app, Hsent. auto.
    + inversion Hstep; subst. simpl.
      rewrite sent_events_app, Hsent. auto.
  - inversion Hstep; subst. simpl in Hat'. discriminate.
Qed.

(** X20. A stretch of events that carry the expected sequence numbers one
    after the other (none of them a hello with a connection id): if the
    loop is still in its inner select afterwards, every one of them was
    sent on [wsEventChan], in order, the expected sequence number has
    advanced by their number, and the connection id and the fail count
    are as before. *)
Theorem listen_events_in_order evs : forall (st st' : @listenState S) t,
  Forall (fun ev => helloConnectionID ev = None) evs ->
  consecutiveFrom (wsServerSeq (ue st)) evs ->
  Int64.min_int <= wsServerSeq (ue st) ->
  wsServerSeq (ue st) + Z.of_nat (length evs) <= Int64.max_int ->
  listen_run st (map recv_EventChannel evs) = Some (t, st') ->
  at_ st = Active ->
  at_ st' = Active ->
  sent_events t = evs
  /\ wsServerSeq (ue st') = wsServerSeq (ue st) + Z.of_nat (length evs)
  /\ wsConnID (ue st') = wsConnID (ue st)
  /\ connectionFailCount st' = connectionFailCount st.
Proof.
  induction evs as [| ev evs IH];
    intros st st' t Hno Hcons Hmin Hmax Hrun Hat Hat'.
  - simpl in Hrun. inversion Hrun; subst. simpl.
    rewrite Z.add_0_r. auto.
  - simpl in Hcons. destruct Hcons as [Hseq Hcons].
    apply Forall_cons in Hno. destruct Hno as [Hno1 Hno].
    simpl length in Hmax. simpl map in Hrun.
    apply listen_run_cons in Hrun.
    destruct Hrun as (t1 & st1 & t2 & Hstep & Hrest & ->).
    assert (Hat1 : at_ st1 = Active).
    { destruct evs as [| ev2 evs].
      - simpl in Hrest. inversion Hrest; subst. exact Hat'.
      - simpl in Hrest. unfold listen_step in Hrest.
        destruct (at_ st1); try reflexivity; simpl in Hrest; discriminate. }
    destruct (listen_step_accepted st st1 ev t1 Hno1 Hseq Hstep Hat1)
      as (_ & Hsent & Hnum & Hconn & Hfail).
    rewrite Int64_add_1_small in Hnum by lia.
    rewrite <- Hnum in Hcons.
    destruct (IH st1 st' t2 Hno Hcons ltac:(lia) ltac:(lia) Hrest Hat1 Hat')
      as (Hsent2 & Hnum2 & Hconn2 & Hfail2).
    rewrite sent_events_app, Hsent, Hsent2.
    rewrite Hnum2, Hnum, Hconn2, Hconn, Hfail2, Hfail.
    simpl length. repeat split; try reflexivity. lia.
Qed.

(** *** Payloads that cannot be used *)

(** X4. An event of one of the two families that carries the expected
    sequence number but a payload the handler cannot use (missing, no
    string, or refused by the decoder): the loop sends the error on the error
    channel, sends the event on [wsEventChan] all the same, advances the
    sequence number, calls neither the store nor the transport, and stays in
    its inner select with the same fail count. *)
Theorem listen_unusable_payload (st : @listenState S) ev :
  at_ st = Active ->
  GetSequence ev = wsServerSeq (ue st) ->
  ((EventType ev = WebsocketEventReactionAdded
    \/ EventType ev = WebsocketEventReactionRemoved)
   /\ undecodable json_Unmarshal_Reaction (GetData ev !! "reaction"))
  \/ ((EventType ev = WebsocketEventPosted
       \/ EventType ev = WebsocketEventPostEdited
       \/ EventType ev = WebsocketEventPostDeleted)
      /\ undecodable json_Unmarshal_Post (GetData ev !! "post")) ->
  exists e,
    e <> errSeqMismatch
    /\ listen_step st (recv_EventChannel ev) =
         Some ([send_errChan (fmt_Errorf_w
                  "userentity: error in wsEventHandler: " e);
                send_wsEventChan ev],
               with_ue (with_wsServerSeq
                          (Int64.add (wsServerSeq (ue st)) 1) (ue st)) st).
Proof.
  intros Hat Hseq Hbad.
  assert (Hno : helloConnectionID ev = None).
  { unfold helloConnectionID.
    destruct Hbad as [[[-> | ->] _] | [[-> | [-> | ->]] _]]; reflexivity. }
  pose proof (wsEventHandler_hello_skip ev (ue st) Hno) as Hhello.
  destruct (wsEventHandler_after_hello ev (ue st) (ue st) [] Hhello)
    as [Hacc _].
  specialize (Hacc Hseq). rewrite Hseq in Hacc.
  set (u2 := with_wsServerSeq (Int64.add (wsServerSeq (ue st)) 1) (ue st))
    in *.
  assert (Hd : exists e, e <> errSeqMismatch
                 /\ wsEventHandler_dispatch ev u2
                    = ([], Returned (Some e, u2))).
  { destruct Hbad as [[Htype Hun] | [Htype Hun]].
    - assert (Hfam : wsEventHandler_dispatch ev u2
                     = handleReactionEvent ev u2)
        by (unfold wsEventHandler_dispatch;
            destruct Htype as [-> | ->]; reflexivity).
      rewrite Hfam.
      destruct (handleReactionEvent_bad_payload ev u2)
        as (Hmiss & Htyp & Hdec).
      unfold undecodable in Hun.
      destruct (GetData ev !! "reaction") as [[data | T] |] eqn:Hdata.
      + destruct Hun as (err & Herr & Hne). exists err.
        split; [exact Hne | exact (Hdec data err eq_refl Herr)].
      + eexists. split; [| exact (Htyp T eq_refl)]. discriminate.
      + eexists. split; [| exact (Hmiss eq_refl)]. discriminate.
    - assert (Hfam : wsEventHandler_dispatch ev u2 = handlePostEvent ev u2)
        by (unfold wsEventHandler_dispatch;
            destruct Htype as [-> | [-> | ->]]; reflexivity).
      rewrite Hfam.
      destruct (handlePostEvent_bad_payload ev u2) as (Hmiss & Htyp & Hdec).
      unfold undecodable in Hun.
      destruct (GetData ev !! "post") as [[data | T] |] eqn:Hdata.
      + destruct Hun as (err & Herr & Hne). exists err.
        split; [exact Hne | exact (Hdec data err eq_refl Herr)].
      + eexists. split; [| exact (Htyp T eq_refl)]. discriminate.
      + eexists. split; [| exact (Hmiss eq_refl)]. discriminate. }
  destruct Hd as (e & Hne & Hd). rewrite Hd in Hacc. simpl in Hacc.
  exists e. split; [exact Hne |].
  unfold listen_step. rewrite Hat, Hacc.
  rewrite bool_decide_eq_false_2 by exact Hne. reflexivity.
Qed.

(** *** Typing *)

(** X21. What [SendTypingEvent] puts on the typing channel is what the
    loop, in its inner select, hands to the transport: the same channel id
    and parent id. A transport error is sent on the error channel, and in
    either case the loop stays where it is with its state unchanged. *)
Theorem typing_reaches_transport channelId parentId (u : @UserEntity S)
    (st : @listenState S) result :
  connected u = true ->
  at_ st = Active ->
  exists msg,
    SendTypingEvent channelId parentId u
      = ([send_wsTyping msg], Returned (None, u))
    /\ listen_step st (recv_wsTyping msg result)
       = Some (call_client_UserTyping channelId parentId
               :: match result with
                  | Some err =>
                      [send_errChan (fmt_Errorf_w
                         "userentity: error in client.UserTyping: " err)]
                  | None => []
                  end,
               st).
Proof.
  intros Hconn Hat. eexists. split.
  - unfold SendTypingEvent. unfold_monad. simpl. rewrite Hconn. reflexivity.
  - unfold listen_step. rewrite Hat. reflexivity.
Qed.

End ListenRuns.

(** ** The further properties on the sample inputs *)

Lemma handlePostEvent_delete_witness :
  EventType (Sample.postEvent "post_deleted" 5) = WebsocketEventPostDeleted
  /\ handlePostEvent (Sample.postEvent "post_deleted" 5) Sample.viewingOffTopic
     = ([call_DeletePost "p1"],
        Returned (None,
          with_store
            (record_write (call_DeletePost "p1")
               (store Sample.viewingOffTopic))
            Sample.viewingOffTopic)).
Proof.
  split; [reflexivity |].
  exact (proj1 (handlePostEvent_delete
    (Sample.postEvent "post_deleted" 5) "{}" Sample.post1
    Sample.viewingOffTopic eq_refl eq_refl eq_refl)).
Defined.

Lemma handlePostEvent_nil_post_witness :
  @json_Unmarshal_Post nullDecoder "{}" = inr None
  /\ @handlePostEvent scriptedStore _ nullDecoder
       (Sample.postEvent "posted" 5) sampleUser
     = ([call_CurrentChannel], Panicked nilDereference)
  /\ @handlePostEvent scriptedStore _ nullDecoder
       (Sample.postEvent "post_deleted" 5) sampleUser
     = ([], Panicked nilDereference).
Proof.
  split; [reflexivity |].
  pose proof (@handlePostEvent_nil_post scriptedStore _ nullDecoder
                (Sample.postEvent "posted" 5) "{}" sampleUser
                eq_refl eq_refl) as [Hedit _].
  pose proof (@handlePostEvent_nil_post scriptedStore _ nullDecoder
                (Sample.postEvent "post_deleted" 5) "{}" sampleUser
                eq_refl eq_refl) as [_ Hdelete].
  split.
  - exact (proj1 (Hedit (or_introl eq_refl)) Sample.townSquare eq_refl).
  - exact (Hdelete eq_refl).
Defined.

Lemma handleReactionEvent_nil_reaction_witness :
  @json_Unmarshal_Reaction nullDecoder "{}" = inr None
  /\ @handleReactionEvent scriptedStore _ nullDecoder
       (Sample.reactionEvent "reaction_added" 5) sampleUser
     = ([call_CurrentChannel], Panicked nilDereference)
  /\ @handleReactionEvent scriptedStore _ nullDecoder
       (Sample.reactionEvent "reaction_added" 5) Sample.viewingNothing
     = ([call_CurrentChannel], Returned (None, Sample.viewingNothing)).
Proof.
  split; [reflexivity |]. split.
  - exact (proj1 (@handleReactionEvent_nil_reaction scriptedStore _
      nullDecoder (Sample.reactionEvent "reaction_added" 5) "{}" sampleUser
      eq_refl eq_refl) Sample.townSquare eq_refl).
  - exact (proj2 (@handleReactionEvent_nil_reaction scriptedStore _
      nullDecoder (Sample.reactionEvent "reaction_added" 5) "{}"
      Sample.viewingNothing eq_refl eq_refl) (or_intror eq_refl)).
Defined.

Lemma handleReactionEvent_add_witness :
  EventType (Sample.reactionEvent "reaction_added" 5)
    = WebsocketEventReactionAdded
  /\ handleReactionEvent (Sample.reactionEvent "reaction_added" 5) sampleUser
     = ([call_CurrentChannel; call_Post "p1";
         call_SetReaction Sample.thumbsUp],
        Returned (None,
          with_store
            (record_write (call_SetReaction Sample.thumbsUp) Sample.store0)
            sampleUser)).
Proof.
  split; [reflexivity |].
  exact (proj1 (handleReactionEvent_add
    (Sample.reactionEvent "reaction_added" 5) "{}" Sample.thumbsUp
    Sample.townSquare Sample.post1 sampleUser
    eq_refl eq_refl eq_refl eq_refl eq_refl eq_refl)).
Defined.

Lemma handleReactionEvent_ignored_witness :
  handleReactionEvent (Sample.reactionEvent "reaction_added" 5)
    Sample.viewingNothing
  = ([call_CurrentChannel], Returned (None, Sample.viewingNothing))
  /\ handleReactionEvent (Sample.reactionEvent "reaction_added" 5)
       Sample.channelLookupFails
     = ([call_CurrentChannel],
        Returned (Some (fmt_Errorf_w
                    "failed to get current channel from store: "
                    Sample.storeClosed),
                  Sample.channelLookupFails))
  /\ handleReactionEvent (Sample.reactionEvent "reaction_added" 5)
       Sample.viewingOffTopic
     = ([call_CurrentChannel; call_Post "p1"],
        Returned (None, Sample.viewingOffTopic)).
Proof.
  split; [| split].
  - refine (proj1 (handleReactionEvent_ignored
      (Sample.reactionEvent "reaction_added" 5) "{}" Sample.thumbsUp
      Sample.viewingNothing eq_refl eq_refl) _).
    right. exists memstore_ErrChannelNotFound. split; reflexivity.
  - exact (proj1 (proj2 (handleReactionEvent_ignored
      (Sample.reactionEvent "reaction_added" 5) "{}" Sample.thumbsUp
      Sample.channelLookupFails eq_refl eq_refl))
      None Sample.storeClosed eq_refl eq_refl).
  - exact (proj1 (proj2 (proj2 (handleReactionEvent_ignored
      (Sample.reactionEvent "reaction_added" 5) "{}" Sample.thumbsUp
      Sample.viewingOffTopic eq_refl eq_refl)))
      Sample.offTopic None memstore_ErrPostNotFound
      eq_refl eq_refl eq_refl).
Defined.

Lemma wsEventHandler_frame_witness :
  exists t err u',
    wsEventHandler (Sample.postEvent "post_edited" 5) sampleUser
      = (t, Returned (err, u'))
    /\ (count is_store_mutation t <= 1)%nat
    /\ connected u' = connected sampleUser.
Proof.
  destruct (wsEventHandler (Sample.postEvent "post_edited" 5) sampleUser)
    as [t [[err u'] | reason]] eqn:Hrun;
    [| vm_compute in Hrun; discriminate].
  exists t, err, u'. split; [reflexivity |].
  destruct (wsEventHandler_frame _ _ _ _ _ Hrun) as (Hle & _ & Hconn & _).
  split; assumption.
Defined.

Lemma wsEventHandler_other_event_witness :
  helloConnectionID (Sample.event "typing" ∅ 5) = None
  /\ GetSequence (Sample.event "typing" ∅ 5) = wsServerSeq sampleUser
  /\ wsEventHandler (Sample.event "typing" ∅ 5) sampleUser
     = ([], Returned (None, with_wsServerSeq 6 sampleUser)).
Proof.
  split; [reflexivity |]. split; [reflexivity |].
  refine (wsEventHandler_other_event (Sample.event "typing" ∅ 5) sampleUser
            eq_refl _ eq_refl).
  repeat (apply not_elem_of_cons; split; [discriminate |]).
  apply not_elem_of_nil.
Defined.

Lemma wsEventHandler_reject_keeps_store_witness :
  GetSequence (Sample.postEvent "posted" 8) <> wsServerSeq sampleUser
  /\ exists t,
       wsEventHandler (Sample.postEvent "posted" 8) sampleUser
         = (t, Returned (Some errSeqMismatch, sampleUser))
       /\ count is_store_call t = 0%nat.
Proof.
  split; [discriminate |].
  destruct (wsEventHandler_reject_keeps_store
              (Sample.postEvent "posted" 8) sampleUser sampleUser []
              eq_refl ltac:(discriminate))
    as (t & Hrun & Hcount & _).
  exists t. split; assumption.
Defined.

Lemma wsEventHandler_hello_event_witness :
  EventType (Sample.helloFrom "B" 0) = WebsocketEventHello
  /\ exists t u',
       wsEventHandler (Sample.helloFrom "B" 0) sampleUser
         = (t, Returned (None, u'))
       /\ wsConnID u' = "B" /\ wsServerSeq u' = 1.
Proof.
  split; [reflexivity |].
  destruct (wsEventHandler_hello_event (Sample.helloFrom "B" 0) sampleUser
              "B" eq_refl eq_refl)
    as (t & u' & Hrun & Hid & Hnum & _).
  exists t, u'. split; [exact Hrun |]. split; [exact Hid | exact Hnum].
Defined.

Lemma listen_connection_balance_witness :
  exists t st',
    listen_run (listen_init sampleUser) sampleSession = Some (t, st')
    /\ at_ st' = Exited
    /\ count is_incWebSocketConnections t
       = count is_decWebSocketConnections t.
Proof.
  destruct (listen_run (listen_init sampleUser) sampleSession)
    as [[t st'] |] eqn:Hrun; [| vm_compute in Hrun; discriminate].
  exists t, st'. split; [reflexivity |].
  assert (Hat : at_ st' = Exited)
    by (vm_compute in Hrun; inversion Hrun; reflexivity).
  split; [exact Hat |].
  pose proof (listen_connection_balance _ _ _ _ Hrun) as Hbal.
  rewrite Hat in Hbal. simpl in Hbal. lia.
Defined.

Lemma listen_fail_count_counts_timers_witness :
  exists t st',
    listen_run (listen_init sampleUser) sampleSession = Some (t, st')
    /\ connectionFailCount st' = Z.of_nat (count is_time_After t).
Proof.
  destruct (listen_run (listen_init sampleUser) sampleSession)
    as [[t st'] |] eqn:Hrun; [| vm_compute in Hrun; discriminate].
  exists t, st'. split; [reflexivity |].
  refine (proj1 (listen_fail_count_counts_timers _ _ _ _ Hrun _ _)).
  - vm_compute. discriminate.
  - vm_compute. discriminate.
Defined.

Lemma listen_close_witness :
  inSelect (at_ (Sample.active sampleUser 3)) = true
  /\ exists t st',
       listen_step (Sample.active sampleUser 3) recv_wsClosing
         = Some (t, st')
       /\ at_ st' = Exited
       /\ count is_close_wsClosed t = 1%nat
       /\ count is_decWebSocketConnections t = 1%nat.
Proof.
  split; [reflexivity |].
  destruct (listen_close (Sample.active sampleUser 3) eq_refl)
    as (t & st' & Hstep & Hat & _ & _ & Hclosed & Hdec & _).
  exists t, st'. auto.
Defined.

Lemma listen_closes_once_witness :
  at_ (listen_init sampleUser) <> Exited
  /\ exists t st',
       listen_run (listen_init sampleUser) sampleSession = Some (t, st')
       /\ count is_close_wsClosed t = 1%nat.
Proof.
  split; [discriminate |].
  destruct (listen_run (listen_init sampleUser) sampleSession)
    as [[t st'] |] eqn:Hrun; [| vm_compute in Hrun; discriminate].
  exists t, st'. split; [reflexivity |].
  assert (Hat : at_ st' = Exited)
    by (vm_compute in Hrun; inversion Hrun; reflexivity).
  destruct (listen_closes_once _ _ _ _ Hrun ltac:(discriminate))
    as [Hcount _].
  rewrite Hat in Hcount. exact Hcount.
Defined.

Lemma listen_sends_received_events_witness :
  exists t st',
    listen_run (listen_init sampleUser) sampleSession = Some (t, st')
    /\ sent_events t `sublist_of` received_events sampleSession.
Proof.
  destruct (listen_run (listen_init sampleUser) sampleSession)
    as [[t st'] |] eqn:Hrun; [| vm_compute in Hrun; discriminate].
  exists t, st'. split; [reflexivity |].
  exact (listen_sends_received_events _ _ _ _ Hrun).
Defined.

Lemma listen_events_in_order_witness :
  consecutiveFrom (wsServerSeq sampleUser) sampleEvents
  /\ exists t st',
       listen_run (Sample.active sampleUser 0)
         (map recv_EventChannel sampleEvents) = Some (t, st')
       /\ at_ st' = Active
       /\ sent_events t = sampleEvents
       /\ wsServerSeq (ue st') = 8.
Proof.
  assert (Hcons : consecutiveFrom (wsServerSeq sampleUser) sampleEvents)
    by (simpl; auto).
  split; [exact Hcons |].
  destruct (listen_run (Sample.active sampleUser 0)
              (map recv_EventChannel sampleEvents))
    as [[t st'] |] eqn:Hrun; [| vm_compute in Hrun; discriminate].
  exists t, st'. split; [reflexivity |].
  assert (Hat : at_ st' = Active)
    by (vm_compute in Hrun; inversion Hrun; reflexivity).
  split; [exact Hat |].
  assert (Hno : Forall (fun ev => helloConnectionID ev = None) sampleEvents)
    by (repeat constructor).
  destruct (listen_events_in_order sampleEvents
              (Sample.active sampleUser 0) st' t Hno Hcons
              ltac:(vm_compute; discriminate)
              ltac:(vm_compute; discriminate) Hrun eq_refl Hat)
    as (Hsent & Hnum & _).
  split; [exact Hsent | exact Hnum].
Defined.

Lemma typing_reaches_transport_witness :
  connected sampleUser = true
  /\ at_ (Sample.active sampleUser 0) = Active
  /\ listen_step (Sample.active sampleUser 0)
       (recv_wsTyping {| channelId := "town-square"; parentId := "p1" |}
          (Some Sample.storeClosed))
     = Some ([call_client_UserTyping "town-square" "p1";
              send_errChan (fmt_Errorf_w
                "userentity: error in client.UserTyping: "
                Sample.storeClosed)],
             Sample.active sampleUser 0).
Proof.
  split; [reflexivity |]. split; [reflexivity |].
  destruct (typing_reaches_transport "town-square" "p1" sampleUser
              (Sample.active sampleUser 0) (Some Sample.storeClosed)
              eq_refl eq_refl)
    as (msg & Hsend & Hstep).
  inversion Hsend; subst. exact Hstep.
Defined.

Lemma listen_unusable_payload_witness :
  at_ (Sample.active sampleUser 0) = Active
  /\ GetSequence (Sample.event "posted" ∅ 5) = wsServerSeq sampleUser
  /\ undecodable json_Unmarshal_Post
       (GetData (Sample.event "posted" ∅ 5) !! "post")
  /\ exists e,
       listen_step (Sample.active sampleUser 0)
         (recv_EventChannel (Sample.event "posted" ∅ 5))
       = Some ([send_errChan (fmt_Errorf_w
                  "userentity: error in wsEventHandler: " e);
                send_wsEventChan (Sample.event "posted" ∅ 5)],
               with_ue (with_wsServerSeq 6 sampleUser)
                 (Sample.active sampleUser 0)).
Proof.
  split; [reflexivity |]. split; [reflexivity |].
  assert (Hun : undecodable json_Unmarshal_Post
                  (GetData (Sample.event "posted" ∅ 5) !! "post"))
    by exact I.
  split; [exact Hun |].
  destruct (listen_unusable_payload (Sample.active sampleUser 0)
              (Sample.event "posted" ∅ 5) eq_refl eq_refl
              (or_intror (conj (or_introl eq_refl) Hun)))
    as (e & _ & Hstep).
  exists e. exact Hstep.
Defined.

(** ** The send of SendTypingEvent against the loop *)

Section TypingHandoff.

Context {S : Type} `{MutableUserStore S} `{JSON}.

(** [listen] receives from the typing channel exactly where [inSelect]
    says: in its three selects, and nowhere else. *)
Lemma listen_receives_typing_in_selects (st : @listenState S) msg result :
  inSelect (at_ st) = true
  <-> is_Some (listen_step st (recv_wsTyping msg result)).
Proof.
  unfold listen_step, waitStep.
  destruct (at_ st); simpl; split; intros Hx;
    try discriminate; try reflexivity; eauto;
    destruct Hx as [x Hx]; discriminate.
Qed.



End TypingHandoff.


